(** * PyShell: a shallow embedding of [main.py]

    The shell is a read-dispatch loop over five builtins, a PATH lookup and a
    readline completion callback.  Everything the program observes of its
    environment (the PATH variable, the file system, child processes) is
    reached through a handful of library calls; these are gathered in the
    [OS] interface below and the program is embedded as functions over it.

    Conventions.
    - Python [str] is [string]; a character stands for the code point of the
      same number, so the development covers text in the Latin-1 range.
    - Python [int] is [Z].
    - The platform is POSIX: [os.pathsep] is [":"], [os.path] is [posixpath]
      and [Path] is [PosixPath].
    - Code that can raise lives in the monad [Py]: a computation takes the
      process state and gives back a [result] (a value, or the exception that
      propagates) and the new process state. *)

From Stdlib Require Import String Ascii List ZArith Bool Lia.
Import ListNotations.
Open Scope string_scope.
Open Scope list_scope.

Set Implicit Arguments.

(** ** Python strings *)

Module PyStr.

(** [str.isspace] on one character, for code points below 256. *)
Definition isspace (c : ascii) : bool :=
  let n := nat_of_ascii c in
  ((9 <=? n) && (n <=? 13) || (28 <=? n) && (n <=? 32)
   || (n =? 133) || (n =? 160))%nat.

Definition flush (cur : string) : list string :=
  if (cur =? "")%string then [] else [cur].

(** [s.split()]: maximal runs of non-whitespace characters. [cur] is the
    run being read. *)
Fixpoint split_from (cur s : string) : list string :=
  match s with
  | EmptyString => flush cur
  | String c s' =>
      if isspace c then flush cur ++ split_from "" s'
      else split_from (cur ++ String c "") s'
  end.

Definition split (s : string) : list string := split_from "" s.

(** [s.split(sep)] for a one-character separator: empty fields are kept,
    so the result is never empty. *)
Fixpoint split_on_from (sep : ascii) (cur s : string) : list string :=
  match s with
  | EmptyString => [cur]
  | String c s' =>
      if Ascii.eqb c sep then cur :: split_on_from sep "" s'
      else split_on_from sep (cur ++ String c "") s'
  end.

Definition split_on (sep : ascii) (s : string) : list string :=
  split_on_from sep "" s.

(** Stripping the characters that satisfy [f] from the left, from the
    right, and from both ends. *)
Fixpoint lstrip_by (f : ascii -> bool) (s : string) : string :=
  match s with
  | EmptyString => ""
  | String c s' => if f c then lstrip_by f s' else s
  end.

Fixpoint rstrip_by (f : ascii -> bool) (s : string) : string :=
  match s with
  | EmptyString => ""
  | String c s' =>
      let r := rstrip_by f s' in
      if f c && (r =? "")%string then "" else String c r
  end.

Definition strip_by (f : ascii -> bool) (s : string) : string :=
  rstrip_by f (lstrip_by f s).

(** [s.strip()] *)
Definition strip (s : string) : string := strip_by isspace s.

(** [s.startswith(p)] and [s.endswith(p)]. *)
Fixpoint startswith (s p : string) {struct p} : bool :=
  match p with
  | EmptyString => true
  | String a p' =>
      match s with
      | EmptyString => false
      | String b s' => Ascii.eqb b a && startswith s' p'
      end
  end.

Fixpoint endswith_char (s : string) (c : ascii) : bool :=
  match s with
  | EmptyString => false
  | String a EmptyString => Ascii.eqb a c
  | String _ s' => endswith_char s' c
  end.

(** [sep.join(l)]. *)
Definition join (sep : string) (l : list string) : string :=
  String.concat sep l.

(** [s[1:]]. *)
Definition tail (s : string) : string :=
  match s with
  | EmptyString => ""
  | String _ s' => s'
  end.

Definition digit_of (c : ascii) : option Z :=
  let n := nat_of_ascii c in
  if ((48 <=? n) && (n <=? 57))%nat then Some (Z.of_nat (n - 48)) else None.

(** The digit part of an integer literal: decimal digits, where single
    underscores may stand between two digits. [prev] tells whether the
    character just read was a digit. *)
Fixpoint parse_digits (acc : Z) (prev : bool) (s : string) : option Z :=
  match s with
  | EmptyString => if prev then Some acc else None
  | String c s' =>
      match digit_of c with
      | Some d => parse_digits (10 * acc + d) true s'
      | None =>
          if Ascii.eqb c "_" && prev then parse_digits acc false s'
          else None
      end
  end.

(** The whitespace that [int] skips around a literal: that of [isspace]
    but for the separators 28 to 31. *)
Definition int_isspace (c : ascii) : bool :=
  let n := nat_of_ascii c in
  ((9 <=? n) && (n <=? 13) || (n =? 32) || (n =? 133) || (n =? 160))%nat.

Fixpoint count_digits (s : string) : nat :=
  match s with
  | EmptyString => 0
  | String c s' =>
      (match digit_of c with Some _ => 1 | None => 0 end + count_digits s')%nat
  end.

(** [sys.int_max_str_digits], at its default. *)
Definition int_max_str_digits : Z := 4300.

(** The literal after its sign: refused when it has more digits than the
    interpreter converts. *)
Definition parse_literal (d : string) : option Z :=
  if (int_max_str_digits <? Z.of_nat (count_digits d))%Z then None
  else parse_digits 0 false d.

(** [int(s)]: [Some n] when the conversion succeeds, [None] when it raises
    [ValueError].  Surrounding whitespace and one sign are accepted. *)
Definition int (s : string) : option Z :=
  match strip_by int_isspace s with
  | String "+" d => parse_literal d
  | String "-" d => option_map Z.opp (parse_literal d)
  | d => parse_literal d
  end.

(** [l[i]] on a list: a negative index counts from the end; [None] stands
    for [IndexError]. *)
Definition index {A} (l : list A) (i : Z) : option A :=
  let n := Z.of_nat (List.length l) in
  if (i <? 0)%Z then
    if (0 <=? n + i)%Z then nth_error l (Z.to_nat (n + i)) else None
  else nth_error l (Z.to_nat i).

End PyStr.

(** ** Exceptions *)

(** The subclasses of [OSError] that the program tells apart. *)
Inductive oserror_class : Type :=
| FileNotFoundError
| NotADirectoryError
| OtherOSError.

(** The exceptions that occur.  [OSError c msg] is an instance of [OSError]
    whose class is [c] and whose [str()] is [msg]. *)
Inductive exn : Type :=
| SystemExit (code : Z)
| ValueError (msg : string)
| AttributeError (msg : string)
| IndexError (msg : string)
| EOFError
| OSError (c : oserror_class) (msg : string)
| CalledProcessError (returncode : Z) (out err : string).

Inductive result (A : Type) : Type :=
| Return (a : A)
| Raise (e : exn).
Arguments Return {A} a.
Arguments Raise {A} e.

(** A list built element by element, as a comprehension does: the first
    exception ends it. *)
Fixpoint map_result {A B : Type} (f : A -> result B) (l : list A)
    : result (list B) :=
  match l with
  | [] => Return []
  | x :: l' =>
      match f x with
      | Raise e => Raise e
      | Return y =>
          match map_result f l' with
          | Raise e => Raise e
          | Return ys => Return (y :: ys)
          end
      end
  end.

(** ** The operating system *)

(** What the program asks of its environment.  [W] is the state of
    everything outside the interpreter: environment variables, the file
    system, the current directory.  A relative path is read against the
    current directory of the world it is looked up in. *)
Class OS (W : Type) : Type := {
  (** [os.environ.get("PATH")] *)
  environ_PATH : W -> option string;
  (** [os.path.expanduser("~")] *)
  expanduser_home : W -> string;
  (** [os.getcwd()]: the current directory, or the exception (the call
      fails when the directory has been removed) *)
  getcwd : W -> result string;
  (** [os.stat(p)] succeeds *)
  fs_stat_ok : W -> string -> bool;
  (** [os.access(p, os.X_OK)] *)
  access_X_OK : W -> string -> bool;
  (** [Path(p).is_dir()]: whether [p] names a directory.  A path that
      names nothing gives [False]; an error of [os.stat] other than a
      missing path, a component that is no directory, a bad descriptor or
      a loop of links (no permission, a name too long) is raised. *)
  fs_is_dir : W -> string -> result bool;
  (** [os.listdir(p)] *)
  listdir : W -> string -> result (list string);
  (** [os.chdir(p)]: the world after the change, or the exception. A failed
      call leaves the world as it was. *)
  chdir : W -> string -> result W;
  (** Running a child to completion with its output captured: the world
      the child leaves behind, and either the exception of a failed launch
      or the exit status, standard output and standard error. *)
  spawn : W -> list string -> W * result (Z * string * string);
  (** [os.stat("")] fails with [ENOENT] *)
  stat_empty : forall w, fs_stat_ok w "" = false
}.

(** ** Process state and the [Py] monad *)

Record process (W : Type) : Type := mkProcess {
  world : W;
  (** everything written to standard output so far *)
  stdout : string
}.

Definition Py (W A : Type) : Type := process W -> result A * process W.

Definition ret {W A} (a : A) : Py W A := fun p => (Return a, p).

Definition raise {W A} (e : exn) : Py W A := fun p => (Raise e, p).

Definition bind {W A B} (m : Py W A) (k : A -> Py W B) : Py W B :=
  fun p =>
    match m p with
    | (Return a, p') => k a p'
    | (Raise e, p') => (Raise e, p')
    end.

(** [try: m except ...: handler]: [handler e] is [Some h] when an [except]
    clause matches [e], and [None] when [e] propagates. *)
Definition try_except {W A}
    (m : Py W A) (handler : exn -> option (Py W A)) : Py W A :=
  fun p =>
    match m p with
    | (Return a, p') => (Return a, p')
    | (Raise e, p') =>
        match handler e with
        | Some h => h p'
        | None => (Raise e, p')
        end
    end.

Declare Scope py_scope.
Delimit Scope py_scope with py.
Notation "x <- m ;; k" := (bind m (fun x => k))
  (at level 61, m at next level, right associativity) : py_scope.
Notation "m ;; k" := (bind m (fun _ => k))
  (at level 61, right associativity) : py_scope.
Open Scope py_scope.

(** [print(s, end=e)] *)
Definition print_end {W} (s e : string) : Py W unit :=
  fun p => (Return tt, mkProcess (world p) (stdout p ++ s ++ e)).

Definition newline : string := String (ascii_of_nat 10) "".

(** [print(s)] *)
Definition print {W} (s : string) : Py W unit := print_end s newline.

(** ** [os.path] *)

(** [os.path.join(a, b)] *)
Definition os_path_join (a b : string) : string :=
  if PyStr.startswith b "/" then b
  else if (a =? "")%string || PyStr.endswith_char a "/" then a ++ b
  else a ++ "/" ++ b.

Section Program.

Context {W : Type} `{OS W}.

(** [os.path.exists(p)] *)
Definition os_path_exists (w : W) (p : string) : bool := fs_stat_ok w p.

(** ** Dictionaries with string keys, in insertion order *)

Definition dict (V : Type) : Type := list (string * V).

Fixpoint dict_get {V} (d : dict V) (k : string) : option V :=
  match d with
  | [] => None
  | (k', v) :: d' => if (k' =? k)%string then Some v else dict_get d' k
  end.

(** [k in d] *)
Definition dict_in {V} (k : string) (d : dict V) : bool :=
  match dict_get d k with Some _ => true | None => false end.

(** [d[k] = v]: an existing key keeps its place. *)
Fixpoint dict_set {V} (d : dict V) (k : string) (v : V) : dict V :=
  match d with
  | [] => [(k, v)]
  | (k', v') :: d' =>
      if (k' =? k)%string then (k, v) :: d' else (k', v') :: dict_set d' k v
  end.

(** [d.update(items)] *)
Definition dict_update {V} (d items : dict V) : dict V :=
  fold_left (fun acc kv => dict_set acc (fst kv) (snd kv)) items d.

(** [[k for k in d]] *)
Definition dict_keys {V} (d : dict V) : list string := map fst d.

(** ** [PathResolver] *)

(** The body of the [for] loop of [findinpath], over the directories
    still to be tried. *)
Fixpoint findinpath_loop (w : W) (pathdirs : list string) (cmd : string)
    : option string :=
  match pathdirs with
  | [] => None
  | directory :: rest =>
      let fullpath := os_path_join directory cmd in
      if os_path_exists w fullpath && access_X_OK w fullpath
      then Some fullpath
      else findinpath_loop w rest cmd
  end.

(** [os.environ.get("PATH", "").split(os.pathsep)] *)
Definition pathdirs (w : W) : list string :=
  PyStr.split_on ":"
    (match environ_PATH w with Some v => v | None => "" end).

Definition findinpath (w : W) (cmd : string) : option string :=
  findinpath_loop w (pathdirs w) cmd.

(** The test of the loop for one directory: the joined path exists and
    may be executed. *)
Definition matches_in (w : W) (cmd directory : string) : bool :=
  os_path_exists w (os_path_join directory cmd)
  && access_X_OK w (os_path_join directory cmd).

(** Truth value of an [Optional[str]]: [None] and [""] are false. *)
Definition truthy (o : option string) : bool :=
  match o with
  | Some s => negb (s =? "")%string
  | None => false
  end.

(** ** The builtin commands *)

(** The concrete subclasses of [ShellCommand]. [TypeCommand] holds a
    reference to the registry that contains it; the registry is handed to
    [execute] instead. *)
Inductive ShellCommand : Type :=
| ExitCommand
| EchoCommand
| TypeCommand
| PwdCommand
| CdCommand.

(** [int(s)] as a computation. *)
Definition int_of_str (s : string) : Py W Z :=
  match PyStr.int s with
  | Some n => ret n
  | None =>
      raise (ValueError ("invalid literal for int() with base 10: " ++ s))
  end.

(** [sys.exit(code)] *)
Definition sys_exit {A} (code : Z) : Py W A := raise (SystemExit code).

Definition ExitCommand_execute (args : list string) : Py W unit :=
  try_except
    (code <- match args with
             | a :: _ => int_of_str a
             | [] => ret 0%Z
             end ;;
     sys_exit code)
    (fun e =>
       match e with
       | ValueError _ => Some (print "exit: Invalid exit code")
       | _ => None
       end).

Definition EchoCommand_execute (args : list string) : Py W unit :=
  print (PyStr.join " " args).

Definition TypeCommand_execute (builtins : dict ShellCommand)
    (args : list string) : Py W unit :=
  match args with
  | [] => print "type: usage: type <command>"
  | cmd :: _ =>
      print_end cmd "" ;;
      if dict_in cmd builtins then print " is a shell builtin"
      else
        fun p =>
          let path := findinpath (world p) cmd in
          if truthy path
          then print (" is " ++ match path with Some s => s | None => "" end) p
          else print ": not found" p
  end.

Definition PwdCommand_execute (args : list string) : Py W unit :=
  fun p =>
    match getcwd (world p) with
    | Return d => print d p
    | Raise e => (Raise e, p)
    end.

(** [os.chdir(path)] *)
Definition os_chdir (path : string) : Py W unit :=
  fun p =>
    match chdir (world p) path with
    | Return w' => (Return tt, mkProcess w' (stdout p))
    | Raise e => (Raise e, p)
    end.

Definition CdCommand_execute (args : list string) : Py W unit :=
  fun p =>
    let path := match args with
                | a :: _ => a
                | [] => expanduser_home (world p)
                end in
    try_except (os_chdir path)
      (fun e =>
         match e with
         | OSError FileNotFoundError _ =>
             Some (print ("cd: " ++ path ++ ": No such file or directory"))
         | OSError NotADirectoryError _ =>
             Some (print ("cd: " ++ path ++ ": Not a directory"))
         | OSError OtherOSError msg =>
             Some (print ("cd: " ++ path ++ ": " ++ msg))
         | _ => None
         end) p.

(** [command.execute(args)], by the class of [command]. *)
Definition execute (builtins : dict ShellCommand) (c : ShellCommand)
    (args : list string) : Py W unit :=
  match c with
  | ExitCommand => ExitCommand_execute args
  | EchoCommand => EchoCommand_execute args
  | TypeCommand => TypeCommand_execute builtins args
  | PwdCommand => PwdCommand_execute args
  | CdCommand => CdCommand_execute args
  end.

(** ** [pathlib] *)

(** A [PosixPath]: whether it starts at the root, and its components. *)
Record Path : Type := mkPath {
  absolute : bool;
  parts : list string
}.

(** [Path('.')] *)
Definition Path_dot : Path := mkPath false [].

(** [Path("/")] *)
Definition Path_root : Path := mkPath true [].

(** [str(p)] *)
Definition Path_str (p : Path) : string :=
  if absolute p then "/" ++ PyStr.join "/" (parts p)
  else match parts p with
       | [] => "."
       | _ => PyStr.join "/" (parts p)
       end.

(** [p.name] *)
Definition Path_name (p : Path) : string := List.last (parts p) "".

(** [p.parent]: a path without components is its own parent. *)
Definition Path_parent (p : Path) : Path :=
  mkPath (absolute p) (removelast (parts p)).

(** The components a string contributes to a path: empty ones and ["."]
    are dropped. *)
Definition parse_parts (s : string) : list string :=
  filter (fun c => negb (c =? "")%string && negb (c =? ".")%string)
         (PyStr.split_on "/" s).

(** [p / s] *)
Definition Path_truediv (p : Path) (s : string) : Path :=
  if PyStr.startswith s "/" then mkPath true (parse_parts s)
  else mkPath (absolute p) (parts p ++ parse_parts s).

(** The path of the entry [name] of the directory [p], as [iterdir]
    builds it. *)
Definition make_child_relpath (p : Path) (name : string) : Path :=
  mkPath (absolute p) (parts p ++ [name]).

(** [p.is_dir()] *)
Definition Path_is_dir (w : W) (p : Path) : result bool :=
  fs_is_dir w (Path_str p).

(** [p.iterdir()], run to its end. *)
Definition Path_iterdir (w : W) (p : Path) : result (list Path) :=
  match listdir w (Path_str p) with
  | Return names => Return (map (make_child_relpath p) names)
  | Raise e => Raise e
  end.

(** ** [Completer] *)

(** [matches] is [None] as long as the attribute has not been assigned. *)
Record Completer : Type := mkCompleter {
  completer_builtins : dict ShellCommand;
  matches : option (list string)
}.

(** [Completer(builtins)] *)
Definition Completer_init (builtins : dict ShellCommand) : Completer :=
  mkCompleter builtins None.

(** One round of the loop over [target.split("/")]. *)
Definition cd_step (current_path : Path) (component : string) : Path :=
  if (component =? "..")%string then Path_parent current_path
  else if negb (component =? "")%string && negb (component =? ".")%string
       then Path_truediv current_path component
       else current_path.

(** The directory the [cd] branch lists for the last token [target]. *)
Definition cd_directory (w : W) (target : string) : result Path :=
  let start := if PyStr.startswith target "/" then Path_root else Path_dot in
  let target' := if PyStr.startswith target "/" then PyStr.tail target
                 else target in
  let current_path := fold_left cd_step (PyStr.split_on "/" target') start in
  match Path_is_dir w current_path with
  | Raise e => Raise e
  | Return true => Return current_path
  | Return false =>
      match Path_is_dir w (Path_parent current_path) with
      | Raise e => Raise e
      | Return true => Return (Path_parent current_path)
      | Return false => Return Path_dot
      end
  end.

(** One element of the comprehension: the path of the entry, with a slash
    after it when the entry is a directory. *)
Definition entry_candidate (w : W) (p : Path) : result string :=
  match Path_is_dir w p with
  | Raise e => Raise e
  | Return true => Return (Path_str p ++ "/")%string
  | Return false => Return (Path_str p)
  end.

(** The comprehension shared by both branches for two or more tokens. *)
Definition path_matches (w : W) (current_path : Path) (last : string)
    : result (list string) :=
  match Path_iterdir w current_path with
  | Raise e => Raise e
  | Return ps =>
      map_result (entry_candidate w)
        (filter (fun p => PyStr.startswith (Path_name p) last) ps)
  end.

(** The list assigned to [self.matches] when [state == 0], for the tokens
    [parts] of the buffer. *)
Definition candidates (w : W) (builtins : dict ShellCommand)
    (parts : list string) : result (list string) :=
  match parts with
  | [] =>
      match Path_iterdir w Path_dot with
      | Raise e => Raise e
      | Return ps => Return (dict_keys builtins ++ map Path_name ps)
      end
  | [part] =>
      match Path_iterdir w Path_dot with
      | Raise e => Raise e
      | Return ps =>
          Return
            (filter (fun cmd => PyStr.startswith cmd part)
                    (dict_keys builtins)
             ++ filter (fun n => PyStr.startswith n part)
                       (map Path_name ps))
      end
  | _ =>
      let last := List.last parts "" in
      let before := nth (List.length parts - 2) parts "" in
      if (before =? "cd")%string
      then match cd_directory w last with
           | Raise e => Raise e
           | Return current_path => path_matches w current_path last
           end
      else path_matches w Path_dot last
  end.

(** [self.matches[state]] inside [try ... except IndexError: return None] *)
Definition serve (self : Completer) (state : Z) : result (option string) :=
  match matches self with
  | None =>
      Raise (AttributeError "'Completer' object has no attribute 'matches'")
  | Some l => Return (PyStr.index l state)
  end.

(** [complete(text, state)]: the value returned or the exception raised,
    and the completer afterwards. *)
Definition complete (w : W) (self : Completer) (text : string) (state : Z)
    : result (option string) * Completer :=
  if (state =? 0)%Z then
    let parts := PyStr.split text in
    match candidates w (completer_builtins self) parts with
    | Raise e => (Raise e, self)
    | Return l =>
        let self' := mkCompleter (completer_builtins self) (Some l) in
        match parts with
        | [] =>
            (Return (if (state <? Z.of_nat (List.length l))%Z
                     then PyStr.index l state else None), self')
        | _ => (serve self' state, self')
        end
    end
  else (serve self state, self).

(** ** [Shell] *)

Record Shell : Type := mkShell {
  builtins : dict ShellCommand;
  completer : Completer
}.

Definition initializebuiltins (b : dict ShellCommand) : dict ShellCommand :=
  dict_set
    (dict_update b
       [("exit", ExitCommand); ("echo", EchoCommand);
        ("pwd", PwdCommand); ("cd", CdCommand)])
    "type" TypeCommand.

(** [Shell()] *)
Definition Shell_init : Shell :=
  let b := initializebuiltins [] in
  mkShell b (Completer_init b).

(** [subprocess.run(tokens, capture_output=True, text=True, check=True)]:
    the captured output and error of a child that exited with status 0. *)
Definition subprocess_run (tokens : list string) : Py W (string * string) :=
  fun p =>
    match tokens with
    | [] => (Raise (IndexError "list index out of range"), p)
    | _ =>
        let (w', r) := spawn (world p) tokens in
        let p' := mkProcess w' (stdout p) in
        match r with
        | Raise e => (Raise e, p')
        | Return (rc, out, err) =>
            if (rc =? 0)%Z then (Return (out, err), p')
            else (Raise (CalledProcessError rc out err), p')
        end
    end.

Definition executeexternalcommand (tokens : list string) : Py W unit :=
  let tokens0 := List.hd "" tokens in
  try_except
    (r <- subprocess_run tokens ;;
     print_end (fst r) "")
    (fun e =>
       match e with
       | OSError FileNotFoundError _ =>
           Some (print (tokens0 ++ ": command not found"))
       | CalledProcessError _ _ err => Some (print_end err "")
       | OSError _ msg =>
           Some (print ("Error executing " ++ tokens0 ++ ": " ++ msg))
       | _ => None
       end).

Definition processinput (self : Shell) (inputstr : string) : Py W unit :=
  let tokens := PyStr.split (PyStr.strip inputstr) in
  match tokens with
  | [] => ret tt
  | cmdname :: cmdargs =>
      match dict_get (builtins self) cmdname with
      | Some command => execute (builtins self) command cmdargs
      | None =>
          fun p =>
            if truthy (findinpath (world p) cmdname)
            then executeexternalcommand tokens p
            else print (cmdname ++ ": command not found") p
      end
  end.

(** [run()] on the lines still to come from standard input: [input("$ ")]
    writes the prompt and raises [EOFError] when the input is exhausted. *)
Fixpoint run (self : Shell) (lines : list string) : Py W unit :=
  match lines with
  | [] => print_end "$ " "" ;; raise EOFError
  | inputstr :: rest =>
      print_end "$ " "" ;;
      processinput self inputstr ;;
      run self rest
  end.

(** [isinstance(e, OSError)] *)
Definition is_OSError (e : exn) : bool :=
  match e with OSError _ _ => true | _ => false end.

(** [isinstance(e, subprocess.CalledProcessError)] *)
Definition is_CalledProcessError (e : exn) : bool :=
  match e with CalledProcessError _ _ _ => true | _ => false end.

(** The candidates after [cd] as the specification words them: the
    entries of the resolved directory whose names start with the final
    component of the last token. *)
Definition spec_cd_candidates (w : W) (last : string) : result (list string) :=
  match cd_directory w last with
  | Raise e => Raise e
  | Return current_path =>
      path_matches w current_path (List.last (PyStr.split_on "/" last) "")
  end.

(** The candidate offered for the entry at [path]: the path, with a slash
    after it when [is_dir] says it is a directory. *)
Definition path_candidate (w : W) (path : string) : result string :=
  match fs_is_dir w path with
  | Raise e => Raise e
  | Return true => Return (path ++ "/")%string
  | Return false => Return path
  end.

(** [s] holds a slash. *)
Fixpoint has_slash (s : string) : bool :=
  match s with
  | EmptyString => false
  | String c s' => Ascii.eqb c "/" || has_slash s'
  end.

(** Directory listings give plain names: no entry holds a slash. *)
Definition listdir_plain (w : W) : Prop :=
  forall (p : string) (names : list string),
    listdir w p = Return names ->
    forallb (fun n => negb (has_slash n)) names = true.


(** The process once [input("$ ")] has written its prompt. *)
Definition prompted (p : process W) : process W :=
  mkProcess (world p) (stdout p ++ "$ ").

End Program.

(** ** A small concrete world

    An in-memory file system with a fixed tree, used to run the program on
    concrete inputs.  The state of the world is the value of PATH and the
    current directory. *)

Module Demo.

Inductive kind : Type := Dir | Exe | Plain | Locked.

(** Absolute paths, as lists of components, and what they name. [Locked]
    is a directory that may be neither entered nor read. *)
Definition tree : list (list string * kind) :=
  [ ([], Dir);
    (["usr"], Dir);
    (["usr"; "bin"], Dir);
    (["usr"; "bin"; "ls"], Exe);
    (["usr"; "bin"; "cat"], Exe);
    (["root"], Locked);
    (["home"], Dir);
    (["home"; "user"], Dir);
    (["home"; "user"; "notes.txt"], Plain);
    (["home"; "user"; "run.sh"], Exe);
    (["home"; "user"; "src"], Dir);
    (["home"; "user"; "src"; "main.py"], Plain) ].

Record world : Type := mkWorld {
  PATH : option string;
  cwd : list string
}.

Fixpoint path_eqb (a b : list string) : bool :=
  match a, b with
  | [], [] => true
  | x :: a', y :: b' => (x =? y)%string && path_eqb a' b'
  | _, _ => false
  end.

(** The absolute path that [p] names when the current directory is [cwd]. *)
Definition normalize (cwd : list string) (p : string) : list string :=
  fold_left
    (fun acc c =>
       if (c =? "")%string || (c =? ".")%string then acc
       else if (c =? "..")%string then removelast acc
       else acc ++ [c])
    (PyStr.split_on "/" p)
    (if PyStr.startswith p "/" then [] else cwd).

Definition lookup (k : list string) : option kind :=
  option_map snd (find (fun e => path_eqb (fst e) k) tree).

(** [a] is an ancestor of [b]: a prefix of it, and shorter. *)
Fixpoint ancestor (a b : list string) : bool :=
  match a, b with
  | [], _ :: _ => true
  | x :: a', y :: b' => (x =? y)%string && ancestor a' b'
  | _, _ => false
  end.

(** The path [k] lies below a directory that may not be entered. *)
Definition blocked (k : list string) : bool :=
  existsb (fun e => match snd e with
                    | Locked => ancestor (fst e) k
                    | _ => false
                    end) tree.

Definition permission_denied (p : string) : exn :=
  OSError OtherOSError ("[Errno 13] Permission denied: '" ++ p ++ "'").

Definition stat (w : world) (p : string) : option kind :=
  if (p =? "")%string then None
  else if blocked (normalize (cwd w) p) then None
  else lookup (normalize (cwd w) p).

Definition demo_is_dir (w : world) (p : string) : result bool :=
  if (p =? "")%string then Return false
  else if blocked (normalize (cwd w) p) then Raise (permission_denied p)
  else match lookup (normalize (cwd w) p) with
       | Some Dir | Some Locked => Return true
       | _ => Return false
       end.

Definition abspath (k : list string) : string :=
  ("/" ++ PyStr.join "/" k)%string.

Definition entries (k : list string) : list string :=
  map (fun e => List.last (fst e) "")
      (filter (fun e => negb (path_eqb (fst e) [])
                        && path_eqb (removelast (fst e)) k) tree).

Definition demo_listdir (w : world) (p : string) : result (list string) :=
  if negb (p =? "")%string && blocked (normalize (cwd w) p)
  then Raise (permission_denied p) else
  match stat w p with
  | Some Dir => Return (entries (normalize (cwd w) p))
  | Some Locked => Raise (permission_denied p)
  | Some _ =>
      Raise (OSError NotADirectoryError
               ("[Errno 20] Not a directory: '" ++ p ++ "'"))
  | None =>
      Raise (OSError FileNotFoundError
               ("[Errno 2] No such file or directory: '" ++ p ++ "'"))
  end.

Definition demo_chdir (w : world) (p : string) : result world :=
  if negb (p =? "")%string && blocked (normalize (cwd w) p)
  then Raise (permission_denied p) else
  match stat w p with
  | Some Dir => Return (mkWorld (PATH w) (normalize (cwd w) p))
  | Some Locked => Raise (permission_denied p)
  | Some _ =>
      Raise (OSError NotADirectoryError
               ("[Errno 20] Not a directory: '" ++ p ++ "'"))
  | None =>
      Raise (OSError FileNotFoundError
               ("[Errno 2] No such file or directory: '" ++ p ++ "'"))
  end.

(** Children: [ls] succeeds, [cat] writes to both streams and fails, and
    nothing else can be launched. *)
Definition demo_spawn (w : world) (tokens : list string)
    : world * result (Z * string * string) :=
  match tokens with
  | [] => (w, Raise (IndexError "list index out of range"))
  | t :: _ =>
      if (t =? "ls")%string then
        (w, Return (0%Z, ("notes.txt  run.sh  src" ++ newline)%string, ""))
      else if (t =? "cat")%string then
        (w, Return (1%Z, "partial output",
                    ("cat: nosuch: No such file or directory" ++ newline)%string))
      else
        (w, Raise (OSError FileNotFoundError
                     ("[Errno 2] No such file or directory: '" ++ t ++ "'")))
  end.

#[global] Instance demo_os : OS world := {|
  environ_PATH := PATH;
  expanduser_home := fun _ => "/home/user";
  getcwd := fun w => Return (abspath (cwd w));
  fs_stat_ok := fun w p => match stat w p with Some _ => true | None => false end;
  access_X_OK := fun w p =>
    match stat w p with
    | Some Plain | Some Locked | None => false
    | Some _ => true
    end;
  fs_is_dir := demo_is_dir;
  listdir := demo_listdir;
  chdir := demo_chdir;
  spawn := demo_spawn;
  stat_empty := fun _ => eq_refl
|}.

(** The user's home directory, PATH unset. *)
Definition home_nopath : world := mkWorld None ["home"; "user"].

(** The user's home directory, PATH set to the empty string. *)
Definition home_emptypath : world := mkWorld (Some "") ["home"; "user"].

(** The user's home directory with the usual PATH. *)
Definition home_usual : world :=
  mkWorld (Some "/usr/local/bin:/usr/bin") ["home"; "user"].

Definition start (w : world) : process world := mkProcess w "".

End Demo.

(** Number of line breaks in a text. *)
Fixpoint count_newlines (s : string) : nat :=
  match s with
  | EmptyString => 0
  | String c s' =>
      (if Ascii.eqb c (ascii_of_nat 10) then 1 else 0) + count_newlines s'
  end.

(** No character of [s] is whitespace. *)
Fixpoint no_space (s : string) : bool :=
  match s with
  | EmptyString => true
  | String c s' => negb (PyStr.isspace c) && no_space s'
  end.

(** Every character of [s] is whitespace. *)
Fixpoint all_space (s : string) : bool :=
  match s with
  | EmptyString => true
  | String c s' => PyStr.isspace c && all_space s'
  end.

(** What a token is: not empty, and without whitespace. *)
Definition is_token (t : string) : Prop := t <> "" /\ no_space t = true.

(** * Properties *)

(** ** Strings *)

Lemma append_nil_r (s : string) : (s ++ "")%string = s.
Proof.
  induction s as [|c s IH]; simpl; [reflexivity | now rewrite IH].
Qed.

Lemma append_assoc (s t u : string) :
  ((s ++ t) ++ u)%string = (s ++ t ++ u)%string.
Proof.
  induction s as [|c s IH]; simpl; [reflexivity | now rewrite IH].
Qed.

Lemma startswith_append (s t : string) : PyStr.startswith (s ++ t) s = true.
Proof.
  induction s as [|c s IH]; simpl; [reflexivity |].
  now rewrite Ascii.eqb_refl, IH.
Qed.

Lemma count_newlines_append (s t : string) :
  count_newlines (s ++ t) = count_newlines s + count_newlines t.
Proof.
  induction s as [|c s IH]; simpl; [reflexivity | rewrite IH; lia].
Qed.

Lemma no_space_append (s t : string) :
  no_space (s ++ t) = no_space s && no_space t.
Proof.
  induction s as [|c s IH]; simpl; [reflexivity |].
  now rewrite IH, andb_assoc.
Qed.

(** The tokens of a line are not empty and hold no whitespace. *)
Lemma split_from_tokens (cur s : string) :
  no_space cur = true ->
  Forall (fun t => t <> "" /\ no_space t = true) (PyStr.split_from cur s).
Proof.
  revert cur. induction s as [|c s IH]; intros cur Hcur; simpl.
  - unfold PyStr.flush. destruct (String.eqb_spec cur ""); constructor; auto.
  - destruct (PyStr.isspace c) eqn:Hc.
    + apply Forall_app. split; [| now apply IH].
      unfold PyStr.flush. destruct (String.eqb_spec cur ""); constructor; auto.
    + apply IH. rewrite no_space_append, Hcur. simpl. now rewrite Hc.
Qed.

Lemma split_tokens (s : string) :
  Forall (fun t => t <> "" /\ no_space t = true) (PyStr.split s).
Proof. now apply split_from_tokens. Qed.

Lemma no_space_no_newline (s : string) :
  no_space s = true -> count_newlines s = 0.
Proof.
  induction s as [|c s IH]; simpl; [reflexivity |].
  intros Hs. apply andb_true_iff in Hs. destruct Hs as [Hc Hs].
  rewrite (IH Hs).
  destruct (Ascii.eqb_spec c (ascii_of_nat 10)) as [->|_];
    [discriminate | reflexivity].
Qed.

(** Stripping a line first does not change its tokens. *)
Lemma split_from_lstrip (s : string) :
  PyStr.split (PyStr.lstrip_by PyStr.isspace s) = PyStr.split s.
Proof.
  unfold PyStr.split. induction s as [|c s IH]; simpl; [reflexivity |].
  destruct (PyStr.isspace c) eqn:Hc; simpl; [exact IH | now rewrite Hc].
Qed.

Lemma rstrip_empty_split (s : string) :
  PyStr.rstrip_by PyStr.isspace s = "" -> PyStr.split_from "" s = [].
Proof.
  induction s as [|c s IH]; simpl; [reflexivity |].
  destruct (PyStr.isspace c) eqn:Hc; simpl.
  - destruct (String.eqb_spec (PyStr.rstrip_by PyStr.isspace s) "");
      [intros _; now apply IH | discriminate].
  - discriminate.
Qed.

Lemma split_from_rstrip (cur s : string) :
  PyStr.split_from cur (PyStr.rstrip_by PyStr.isspace s)
  = PyStr.split_from cur s.
Proof.
  revert cur. induction s as [|c s IH]; intros cur; simpl; [reflexivity |].
  destruct (PyStr.isspace c) eqn:Hc; simpl.
  - destruct (String.eqb_spec (PyStr.rstrip_by PyStr.isspace s) "") as [E|E];
      simpl.
    + rewrite (rstrip_empty_split _ E). now rewrite app_nil_r.
    + now rewrite Hc, IH.
  - now rewrite Hc, IH.
Qed.

Lemma split_strip (s : string) : PyStr.split (PyStr.strip s) = PyStr.split s.
Proof.
  unfold PyStr.strip, PyStr.strip_by, PyStr.split at 1.
  rewrite split_from_rstrip. apply split_from_lstrip.
Qed.

Example int_examples :
  map PyStr.int ["3"; "+3"; "-007"; "1_0"; "_1"; "1_"; "1__0"; "+-3"; ""; "+";
                 "abc"; "3.0"; "0x10"]
  = [Some 3; Some 3; Some (-7); Some 10; None; None; None; None; None; None;
     None; None; None]%Z.
Proof. reflexivity. Qed.

(** Brings nested appends to the same shape on both sides. *)
Ltac str_norm :=
  repeat (rewrite append_assoc || rewrite append_nil_r); simpl.

Section Facts.

Context {W : Type} `{OS W}.

(** ** The [exit] builtin *)

(** C5. [exit] with no argument raises [SystemExit(0)]; with a first
    argument that [int] accepts it raises [SystemExit] with that number
    (so [exit 3] ends the process with code 3); with a first argument that
    [int] rejects (such as [abc]) it prints exactly
    [exit: Invalid exit code] and returns.  Nothing else is printed and
    the world is not touched. *)
Theorem ExitCommand_execute_spec (args : list string) (p : process W) :
  ExitCommand_execute args p =
    match args with
    | [] => (Raise (SystemExit 0), p)
    | a :: _ =>
        match PyStr.int a with
        | Some code => (Raise (SystemExit code), p)
        | None =>
            (Return tt,
             mkProcess (world p)
               (stdout p ++ "exit: Invalid exit code" ++ newline))
        end
    end
  /\ PyStr.int "3" = Some 3%Z
  /\ PyStr.int "abc" = None.
Proof.
  split; [| split; reflexivity].
  unfold ExitCommand_execute, try_except, bind, int_of_str.
  destruct args as [|a rest].
  - reflexivity.
  - destruct (PyStr.int a) as [code|]; reflexivity.
Qed.

(** ** [PathResolver] *)

Lemma findinpath_loop_sound (w : W) (dirs : list string) (cmd p : string) :
  findinpath_loop w dirs cmd = Some p ->
  os_path_exists w p = true /\ access_X_OK w p = true.
Proof.
  induction dirs as [|d dirs IH]; simpl; [discriminate |].
  destruct (os_path_exists w (os_path_join d cmd)
            && access_X_OK w (os_path_join d cmd)) eqn:E.
  - intros [= <-]. now apply andb_true_iff in E.
  - exact IH.
Qed.

(** A path that [findinpath] returns is never the empty string, so testing
    its truth value is testing for [None]. *)
Lemma truthy_findinpath (w : W) (cmd : string) :
  truthy (findinpath w cmd)
  = match findinpath w cmd with Some _ => true | None => false end.
Proof.
  unfold findinpath.
  destruct (findinpath_loop w (pathdirs w) cmd) as [p|] eqn:E; [| reflexivity].
  apply findinpath_loop_sound in E. destruct E as [E _].
  simpl. destruct p; [| reflexivity].
  unfold os_path_exists in E. rewrite stat_empty in E. discriminate.
Qed.

Lemma split_on_from_nonempty (sep : ascii) (cur s : string) :
  PyStr.split_on_from sep cur s <> [].
Proof.
  revert cur. induction s as [|c s IH]; intros cur; simpl; [discriminate |].
  destruct (Ascii.eqb c sep); [discriminate | apply IH].
Qed.

Lemma os_path_join_absolute (a b : string) :
  PyStr.startswith b "/" = true -> os_path_join a b = b.
Proof. intros Hb. unfold os_path_join. now rewrite Hb. Qed.

Lemma os_path_join_empty (b : string) : os_path_join "" b = b.
Proof. unfold os_path_join. now destruct (PyStr.startswith b "/"). Qed.

Lemma os_path_join_plain (a b : string) :
  a <> "" -> PyStr.endswith_char a "/" = false ->
  PyStr.startswith b "/" = false ->
  os_path_join a b = (a ++ "/" ++ b)%string.
Proof.
  intros Ha Hend Hb. unfold os_path_join. rewrite Hb, Hend.
  apply String.eqb_neq in Ha. now rewrite Ha.
Qed.

(** The loop returns the join for the first directory that matches. *)
Lemma findinpath_loop_some (w : W) (dirs : list string) (cmd p : string) :
  findinpath_loop w dirs cmd = Some p <->
  exists before d after,
    dirs = (before ++ d :: after)%list
    /\ (forall d', In d' before -> matches_in w cmd d' = false)
    /\ matches_in w cmd d = true
    /\ p = os_path_join d cmd.
Proof.
  unfold matches_in. induction dirs as [|d0 dirs IH]; simpl.
  - split; [discriminate |].
    intros (before & d & after & Hd & _). now destruct before.
  - destruct (os_path_exists w (os_path_join d0 cmd)
              && access_X_OK w (os_path_join d0 cmd)) eqn:E.
    + split.
      * intros [= <-]. exists [], d0, dirs. repeat split; auto.
        intros d' [].
      * intros (before & d & after & Hd & Hbefore & Hm & ->).
        destruct before as [|b before]; simpl in Hd; injection Hd as -> ->.
        -- reflexivity.
        -- rewrite (Hbefore b) in E by now left. discriminate.
    + rewrite IH. split.
      * intros (before & d & after & -> & Hbefore & Hm & ->).
        exists (d0 :: before), d, after. repeat split; auto.
        intros d' [<- | Hin]; [exact E | now apply Hbefore].
      * intros (before & d & after & Hd & Hbefore & Hm & ->).
        destruct before as [|b before]; simpl in Hd; injection Hd as -> ->.
        -- rewrite E in Hm. discriminate.
        -- exists before, d, after. repeat split; auto.
           intros d' Hin. apply Hbefore. now right.
Qed.

Lemma findinpath_loop_none (w : W) (dirs : list string) (cmd : string) :
  findinpath_loop w dirs cmd = None <->
  forall d, In d dirs -> matches_in w cmd d = false.
Proof.
  unfold matches_in. induction dirs as [|d0 dirs IH]; simpl.
  - split; [intros _ d [] | reflexivity].
  - destruct (os_path_exists w (os_path_join d0 cmd)
              && access_X_OK w (os_path_join d0 cmd)) eqn:E.
    + split; [discriminate |].
      intros Hall. rewrite (Hall d0) in E by now left. discriminate.
    + rewrite IH. split.
      * intros Hall d [<- | Hin]; [exact E | now apply Hall].
      * intros Hall d Hin. apply Hall. now right.
Qed.

Lemma pathdirs_unset (w : W) :
  environ_PATH w = None \/ environ_PATH w = Some "" -> pathdirs w = [""].
Proof. unfold pathdirs. now intros [-> | ->]. Qed.

(** C2, as the code has it.  [findinpath] splits PATH, read as the empty
    string when it is unset, at every [":"] and tries the fields in order.
    It returns [os.path.join(directory, name)] for the first field whose
    joined path exists and may be executed, and [None] exactly when no
    field has such a path.  The joined path is [directory/name] for a
    field that is not empty and does not end in a slash and a name that
    does not start with one.  An unset or empty PATH is the one empty
    field: the name itself is then looked up, against the current
    directory, and returned when it exists and may be executed. *)
Theorem findinpath_first_match (w : W) (cmd : string) :
  (forall p : string,
     findinpath w cmd = Some p <->
     exists before d after,
       pathdirs w = (before ++ d :: after)%list
       /\ (forall d', In d' before -> matches_in w cmd d' = false)
       /\ matches_in w cmd d = true
       /\ p = os_path_join d cmd)
  /\ (findinpath w cmd = None <->
      forall d, In d (pathdirs w) -> matches_in w cmd d = false)
  /\ (forall d : string,
        d <> "" -> PyStr.endswith_char d "/" = false ->
        PyStr.startswith cmd "/" = false ->
        os_path_join d cmd = (d ++ "/" ++ cmd)%string)
  /\ (environ_PATH w = None \/ environ_PATH w = Some "" ->
      findinpath w cmd
      = if os_path_exists w cmd && access_X_OK w cmd then Some cmd else None).
Proof.
  split; [intros p; apply findinpath_loop_some |].
  split; [apply findinpath_loop_none |].
  split; [intros d; apply os_path_join_plain |].
  intros Hpath. unfold findinpath. rewrite (pathdirs_unset _ Hpath).
  simpl. rewrite os_path_join_empty. reflexivity.
Qed.

(** Whatever PATH holds, a name that starts with a slash is tried as it
    stands for the first field already. *)
Lemma findinpath_absolute_any_PATH (w : W) (cmd : string) :
  PyStr.startswith cmd "/" = true ->
  os_path_exists w cmd = true -> access_X_OK w cmd = true ->
  findinpath w cmd = Some cmd.
Proof.
  intros Habs Hex Hx. unfold findinpath, pathdirs, PyStr.split_on.
  destruct (PyStr.split_on_from ":" ""
              match environ_PATH w with Some v => v | None => "" end)
    as [|d dirs] eqn:E.
  - now apply split_on_from_nonempty in E.
  - simpl. rewrite (os_path_join_absolute d _ Habs), Hex, Hx. reflexivity.
Qed.

(** ** The [type] builtin *)

(** C6. [type name ...] prints exactly one line: [name is a shell builtin]
    when [name] is a key of the registry; otherwise [name is path] when
    [findinpath] resolves [name] to [path]; otherwise [name: not found].
    Without an argument it prints the usage line.  It always returns and
    leaves the world alone. *)
Theorem TypeCommand_execute_spec
    (b : dict ShellCommand) (args : list string) (p : process W) :
  TypeCommand_execute b args p =
    (Return tt,
     mkProcess (world p)
       (stdout p ++
        (match args with
         | [] => "type: usage: type <command>"
         | name :: _ =>
             if dict_in name b then name ++ " is a shell builtin"
             else match findinpath (world p) name with
                  | Some path => name ++ " is " ++ path
                  | None => name ++ ": not found"
                  end
         end) ++ newline)).
Proof.
  destruct args as [|name rest]; [reflexivity |].
  unfold TypeCommand_execute, bind, print_end; simpl.
  destruct (dict_in name b).
  - unfold print, print_end; simpl. now str_norm.
  - rewrite truthy_findinpath. unfold print, print_end; simpl.
    destruct (findinpath (world p) name) as [path|]; now str_norm.
Qed.

(** ** The [cd] builtin *)

(** C4. When [os.chdir] fails with an [OSError], [cd] returns after
    printing one line that starts with [cd: ]: the path followed by
    [No such file or directory] for a missing path, by [Not a directory]
    for a path that is no directory, and by the text of the error
    otherwise; the world, and with it the working directory, is as
    before.  The line holds no line break but its last character, as long
    as the path and the error text hold none; that is so for the first
    two messages whenever the path is a token of an input line. *)
Theorem CdCommand_execute_failure
    (args : list string) (p : process W) (c : oserror_class) (msg : string) :
  let path := match args with
              | a :: _ => a
              | [] => expanduser_home (world p)
              end in
  let detail := match c with
                | FileNotFoundError => "No such file or directory"
                | NotADirectoryError => "Not a directory"
                | OtherOSError => msg
                end in
  let line := ("cd: " ++ path ++ ": " ++ detail ++ newline)%string in
  chdir (world p) path = Raise (OSError c msg) ->
  CdCommand_execute args p
    = (Return tt, mkProcess (world p) (stdout p ++ line))
  /\ getcwd (world (snd (CdCommand_execute args p))) = getcwd (world p)
  /\ PyStr.startswith line "cd: " = true
  /\ (count_newlines path = 0 -> count_newlines detail = 0 ->
      count_newlines line = 1)
  /\ (forall inputstr : string,
        PyStr.split (PyStr.strip inputstr) = "cd" :: args ->
        args <> [] -> c <> OtherOSError ->
        count_newlines line = 1).
Proof.
  intros path detail line Hfail.
  assert (Hrun : CdCommand_execute args p
                 = (Return tt, mkProcess (world p) (stdout p ++ line))).
  { unfold CdCommand_execute, try_except, os_chdir.
    fold path. rewrite Hfail.
    subst line detail. destruct c; unfold print, print_end; simpl.
    all: now str_norm. }
  split; [exact Hrun |].
  split; [now rewrite Hrun |].
  split; [apply (startswith_append "cd: ") |].
  assert (Hone : count_newlines path = 0 -> count_newlines detail = 0 ->
                 count_newlines line = 1).
  { intros Hp Hd. subst line.
    rewrite !count_newlines_append, Hp, Hd. reflexivity. }
  split; [exact Hone |].
  intros inputstr Htokens Hargs Hc. apply Hone.
  - pose proof (split_tokens (PyStr.strip inputstr)) as Htok.
    rewrite Htokens in Htok.
    destruct args as [|a rest]; [contradiction |].
    apply Forall_inv_tail, Forall_inv in Htok.
    apply no_space_no_newline, Htok.
  - subst detail. destruct c; [reflexivity | reflexivity | contradiction].
Qed.

(** ** External commands *)


(** ** The completer *)

Lemma index_nonneg {A} (l : list A) (i : Z) :
  (0 <= i)%Z -> PyStr.index l i = nth_error l (Z.to_nat i).
Proof.
  intros Hi. unfold PyStr.index.
  destruct (i <? 0)%Z eqn:E; [lia | reflexivity].
Qed.

(** C9. On a completer that was just created, a first call with a state
    above 0 returns neither a candidate nor [None]: it raises
    [AttributeError], since nothing has assigned [matches] yet. *)
Theorem complete_before_first_cycle
    (w : W) (b : dict ShellCommand) (text : string) (state : Z) :
  (0 < state)%Z ->
  complete w (Completer_init b) text state
    = (Raise (AttributeError "'Completer' object has no attribute 'matches'"),
       Completer_init b).
Proof.
  intros Hpos. unfold complete.
  destruct (state =? 0)%Z eqn:E; [lia |].
  reflexivity.
Qed.

(** A call with a state other than 0 leaves the completer as it is. *)
Lemma complete_keeps_cache
    (w : W) (self : Completer) (text : string) (state : Z) :
  state <> 0%Z -> snd (complete w self text state) = self.
Proof.
  intros Hne. unfold complete.
  destruct (state =? 0)%Z eqn:E; [lia | reflexivity].
Qed.

(** C8. A call with state 0 that returns has stored the candidates of the
    buffer and returns the first one.  From then on a call with a state
    [n] above 0 reads nothing but that stored list, whatever the buffer
    and the world are by then: it returns the entry at [n], which is [None]
    exactly from the length of the list on, and it leaves the completer
    unchanged. *)
Theorem complete_serves_cache
    (w : W) (self self' : Completer) (text : string) (r0 : option string) :
  complete w self text 0 = (Return r0, self') ->
  exists l : list string,
    candidates w (completer_builtins self) (PyStr.split text) = Return l
    /\ matches self' = Some l
    /\ r0 = nth_error l 0
    /\ forall (w' : W) (text' : string) (n : Z),
         (0 < n)%Z ->
         complete w' self' text' n = (Return (nth_error l (Z.to_nat n)), self')
         /\ ((Z.of_nat (List.length l) <= n)%Z <->
             nth_error l (Z.to_nat n) = None).
Proof.
  unfold complete at 1. simpl.
  destruct (candidates w (completer_builtins self) (PyStr.split text))
    as [l|e] eqn:Hc; [| discriminate].
  intros Hret. exists l.
  assert (Hself : self' = mkCompleter (completer_builtins self) (Some l)
                  /\ r0 = nth_error l 0).
  { destruct (PyStr.split text) as [|t ts].
    - injection Hret as <- <-. split; [reflexivity |].
      destruct l; reflexivity.
    - injection Hret as <- <-. split; reflexivity. }
  destruct Hself as [-> ->].
  repeat split; try reflexivity.
  - unfold complete. destruct (n =? 0)%Z eqn:E; [lia |].
    unfold serve; simpl. rewrite index_nonneg by lia. reflexivity.
  - intros Hlen. apply nth_error_None. lia.
  - intros Hnone. apply nth_error_None in Hnone. lia.
Qed.

(** ** Dispatch *)

Lemma builtins_Shell_init :
  builtins Shell_init
  = [("exit", ExitCommand); ("echo", EchoCommand); ("pwd", PwdCommand);
     ("cd", CdCommand); ("type", TypeCommand)].
Proof. reflexivity. Qed.

Lemma dict_get_Shell_init (name : string) (c : ShellCommand) :
  dict_get (builtins Shell_init) name = Some c ->
  (name = "exit" /\ c = ExitCommand) \/ (name = "echo" /\ c = EchoCommand)
  \/ (name = "pwd" /\ c = PwdCommand) \/ (name = "cd" /\ c = CdCommand)
  \/ (name = "type" /\ c = TypeCommand).
Proof.
  rewrite builtins_Shell_init. cbn [dict_get].
  destruct (String.eqb_spec "exit" name) as [<-|_]; [intros [= <-]; tauto |].
  destruct (String.eqb_spec "echo" name) as [<-|_]; [intros [= <-]; tauto |].
  destruct (String.eqb_spec "pwd" name) as [<-|_]; [intros [= <-]; tauto |].
  destruct (String.eqb_spec "cd" name) as [<-|_]; [intros [= <-]; tauto |].
  destruct (String.eqb_spec "type" name) as [<-|_]; [intros [= <-]; tauto |].
  discriminate.
Qed.

(** No builtin is named by an absolute path. *)
Lemma dict_get_Shell_init_absolute (name : string) :
  PyStr.startswith name "/" = true ->
  dict_get (builtins Shell_init) name = None.
Proof.
  intros Habs.
  destruct (dict_get (builtins Shell_init) name) as [c|] eqn:E;
    [| reflexivity].
  apply dict_get_Shell_init in E.
  destruct E as [[-> _]|[[-> _]|[[-> _]|[[-> _]|[-> _]]]]]; discriminate.
Qed.

(** [processinput], one case for each way the line can go. *)
Lemma processinput_cases (self : Shell) (inputstr : string) (p : process W) :
  processinput self inputstr p =
    match PyStr.split (PyStr.strip inputstr) with
    | [] => (Return tt, p)
    | cmdname :: cmdargs =>
        match dict_get (builtins self) cmdname with
        | Some command => execute (builtins self) command cmdargs p
        | None =>
            match findinpath (world p) cmdname with
            | Some _ => executeexternalcommand (cmdname :: cmdargs) p
            | None =>
                (Return tt,
                 mkProcess (world p)
                   (stdout p ++ cmdname ++ ": command not found" ++ newline))
            end
        end
    end.
Proof.
  unfold processinput.
  destruct (PyStr.split (PyStr.strip inputstr)) as [|cmdname cmdargs];
    [reflexivity |].
  destruct (dict_get (builtins self) cmdname); [reflexivity |].
  rewrite truthy_findinpath.
  destruct (findinpath (world p) cmdname); [reflexivity |].
  unfold print, print_end. now str_norm.
Qed.

Lemma TypeCommand_execute_returns
    (b : dict ShellCommand) (args : list string) (p : process W) :
  fst (TypeCommand_execute b args p) = Return tt.
Proof.
  destruct args as [|cmd rest]; [reflexivity |].
  unfold TypeCommand_execute, bind, print_end; simpl.
  destruct (dict_in cmd b); [reflexivity |].
  rewrite truthy_findinpath. cbn [world].
  now destruct (findinpath (world p) cmd).
Qed.


Lemma CdCommand_execute_raise (args : list string) (p : process W) (e : exn) :
  fst (CdCommand_execute args p) = Raise e ->
  chdir (world p)
    match args with a :: _ => a | [] => expanduser_home (world p) end
  = Raise e
  /\ is_OSError e = false.
Proof.
  unfold CdCommand_execute, try_except, os_chdir.
  destruct (chdir (world p) _) as [w'|e']; simpl; [discriminate |].
  destruct e' as [| | | | |c msg|]; simpl; try (intros [= <-]; now split).
  destruct c; discriminate.
Qed.

Lemma executeexternalcommand_raise
    (tokens : list string) (p : process W) (e : exn) :
  tokens <> [] ->
  fst (executeexternalcommand tokens p) = Raise e ->
  snd (spawn (world p) tokens) = Raise e
  /\ is_OSError e = false /\ is_CalledProcessError e = false.
Proof.
  intros Hne. unfold executeexternalcommand, try_except, bind, subprocess_run.
  destruct tokens as [|t ts]; [contradiction |].
  destruct (spawn (world p) (t :: ts)) as [w' [[[rc out] err]|e']]; simpl.
  - destruct (rc =? 0)%Z; discriminate.
  - destruct e' as [| | | | |c msg|]; simpl;
      try (intros [= <-]; now repeat split).
    destruct c; discriminate.
Qed.

(** The loop goes on with the next line when [processinput] returns, and
    ends with the exception when it raises. *)
Lemma run_step (self : Shell) (inputstr : string) (rest : list string)
    (q : process W) :
  run self (inputstr :: rest) q =
    match processinput self inputstr (prompted q) with
    | (Return _, q') => run self rest q'
    | (Raise e, q') => (Raise e, q')
    end.
Proof.
  cbn [run]. unfold bind at 1 2. unfold print_end at 1. cbn [fst snd].
  unfold prompted. now str_norm.
Qed.

Lemma ExitCommand_execute_result (args : list string) (p : process W) :
  fst (ExitCommand_execute args p)
  = match args with
    | [] => Raise (SystemExit 0)
    | a :: _ =>
        match PyStr.int a with
        | Some code => Raise (SystemExit code)
        | None => Return tt
        end
    end.
Proof.
  unfold ExitCommand_execute, try_except, bind, int_of_str.
  destruct args as [|a rest]; [reflexivity |].
  now destruct (PyStr.int a).
Qed.

Lemma PwdCommand_execute_returns
    (args : list string) (p : process W) (d : string) :
  getcwd (world p) = Return d -> fst (PwdCommand_execute args p) = Return tt.
Proof. intros Hcwd. unfold PwdCommand_execute. now rewrite Hcwd. Qed.

Lemma CdCommand_execute_returns (args : list string) (p : process W) :
  (forall e : exn,
     chdir (world p)
       match args with a :: _ => a | [] => expanduser_home (world p) end
     = Raise e -> is_OSError e = true) ->
  fst (CdCommand_execute args p) = Return tt.
Proof.
  intros Hos.
  destruct (fst (CdCommand_execute args p)) as [[]|e] eqn:E; [reflexivity |].
  apply CdCommand_execute_raise in E. destruct E as [Hcd Hno].
  rewrite (Hos _ Hcd) in Hno. discriminate.
Qed.

Lemma executeexternalcommand_returns
    (tokens : list string) (p : process W) :
  tokens <> [] ->
  (forall e : exn,
     snd (spawn (world p) tokens) = Raise e ->
     is_OSError e = true \/ is_CalledProcessError e = true) ->
  fst (executeexternalcommand tokens p) = Return tt.
Proof.
  intros Hne Hh.
  destruct (fst (executeexternalcommand tokens p)) as [[]|e] eqn:E;
    [reflexivity |].
  apply executeexternalcommand_raise in E; [| exact Hne].
  destruct E as (Hsp & Hos & Hcp).
  destruct (Hh _ Hsp) as [Ht | Ht]; congruence.
Qed.

(** C1, as the code has it.  [processinput] splits the line at whitespace,
    into tokens that are not empty and hold no whitespace; a line without
    tokens does nothing.  Otherwise the first token decides:
    a key of the registry has its command executed with the remaining
    tokens; failing that, a name that [findinpath] resolves has the tokens
    run as an external command; failing that, exactly
    [name: command not found] is printed.  When the call returns, the loop
    prompts for the next line.  In the shell as it is set up the call
    returns after [echo] and [type], after [exit] with a first argument
    that [int] rejects, after [pwd] when [os.getcwd] succeeds, after [cd]
    when [os.chdir] succeeds or fails with an [OSError], after the
    not-found message, and after an external command that ran or whose
    launch failed with an [OSError]; [exit] with no argument or with a
    first argument that [int] accepts raises [SystemExit] and so ends the
    process instead. *)
Theorem processinput_dispatch
    (self : Shell) (inputstr : string) (p : process W) :
  let tokens := PyStr.split (PyStr.strip inputstr) in
  (tokens = PyStr.split inputstr
   /\ Forall (fun t => t <> "" /\ no_space t = true) tokens)
  /\ processinput self inputstr p =
    match tokens with
    | [] => (Return tt, p)
    | cmdname :: cmdargs =>
        match dict_get (builtins self) cmdname with
        | Some command => execute (builtins self) command cmdargs p
        | None =>
            match findinpath (world p) cmdname with
            | Some _ => executeexternalcommand tokens p
            | None =>
                (Return tt,
                 mkProcess (world p)
                   (stdout p ++ cmdname ++ ": command not found" ++ newline))
            end
        end
    end
  /\ (forall (rest : list string) (q : process W),
        fst (processinput self inputstr (prompted q)) = Return tt ->
        run self (inputstr :: rest) q
        = run self rest (snd (processinput self inputstr (prompted q))))
  /\ match tokens with
     | [] => fst (processinput Shell_init inputstr p) = Return tt
     | cmdname :: cmdargs =>
         (cmdname = "exit" ->
          fst (processinput Shell_init inputstr p)
          = match cmdargs with
            | [] => Raise (SystemExit 0)
            | a :: _ =>
                match PyStr.int a with
                | Some code => Raise (SystemExit code)
                | None => Return tt
                end
            end)
         /\ (cmdname = "echo" \/ cmdname = "type" ->
             fst (processinput Shell_init inputstr p) = Return tt)
         /\ (cmdname = "pwd" ->
             (exists d : string, getcwd (world p) = Return d) ->
             fst (processinput Shell_init inputstr p) = Return tt)
         /\ (cmdname = "cd" ->
             (forall e : exn,
                chdir (world p)
                  match cmdargs with
                  | a :: _ => a
                  | [] => expanduser_home (world p)
                  end = Raise e ->
                is_OSError e = true) ->
             fst (processinput Shell_init inputstr p) = Return tt)
         /\ (dict_get (builtins Shell_init) cmdname = None ->
             (forall e : exn,
                snd (spawn (world p) tokens) = Raise e ->
                is_OSError e = true \/ is_CalledProcessError e = true) ->
             fst (processinput Shell_init inputstr p) = Return tt)
     end.
Proof.
  intros tokens. subst tokens.
  split; [split; [apply split_strip | apply split_tokens] |].
  split; [| split].
  - rewrite processinput_cases.
    destruct (PyStr.split (PyStr.strip inputstr)); reflexivity.
  - intros rest q Hret. rewrite run_step.
    destruct (processinput self inputstr (prompted q)) as [[[]|e] q'];
      [reflexivity | discriminate].
  - rewrite processinput_cases.
    destruct (PyStr.split (PyStr.strip inputstr)) as [|cmdname cmdargs];
      [reflexivity |].
    repeat split.
    + intros ->. rewrite builtins_Shell_init.
      cbn [dict_get String.eqb Ascii.eqb Bool.eqb execute].
      apply ExitCommand_execute_result.
    + intros [-> | ->]; rewrite builtins_Shell_init;
        cbn [dict_get String.eqb Ascii.eqb Bool.eqb execute].
      * reflexivity.
      * apply TypeCommand_execute_returns.
    + intros -> [d Hcwd]. rewrite builtins_Shell_init.
      cbn [dict_get String.eqb Ascii.eqb Bool.eqb execute].
      now apply PwdCommand_execute_returns with (d := d).
    + intros -> Hos. rewrite builtins_Shell_init.
      cbn [dict_get String.eqb Ascii.eqb Bool.eqb execute].
      now apply CdCommand_execute_returns.
    + intros -> Hh.
      destruct (findinpath (world p) cmdname); [| reflexivity].
      apply executeexternalcommand_returns; [discriminate | exact Hh].
Qed.

(** C10. A name that starts with a slash, exists and may be executed is
    what [findinpath] returns, unchanged, whatever the fields of a
    non-empty PATH are; a line whose first token is such a name is run as
    an external command. *)
Theorem findinpath_absolute_name (w : W) (cmd path : string) :
  PyStr.startswith cmd "/" = true ->
  environ_PATH w = Some path -> path <> "" ->
  os_path_exists w cmd = true -> access_X_OK w cmd = true ->
  (forall d : string, os_path_join d cmd = cmd)
  /\ findinpath w cmd = Some cmd
  /\ forall (inputstr : string) (cmdargs : list string) (p : process W),
       world p = w ->
       PyStr.split (PyStr.strip inputstr) = cmd :: cmdargs ->
       processinput Shell_init inputstr p
       = executeexternalcommand (cmd :: cmdargs) p.
Proof.
  intros Habs _ _ Hex Hx.
  assert (Hfind : findinpath w cmd = Some cmd)
    by now apply findinpath_absolute_any_PATH.
  split; [intros d; now apply os_path_join_absolute |].
  split; [exact Hfind |].
  intros inputstr cmdargs p <- Htokens.
  rewrite processinput_cases, Htokens.
  now rewrite (dict_get_Shell_init_absolute _ Habs), Hfind.
Qed.

(** ** Completion after [cd] *)

Lemma startswith_has_slash (name last : string) :
  PyStr.startswith name last = true ->
  has_slash last = true -> has_slash name = true.
Proof.
  revert name. induction last as [|c last IH]; intros name; simpl;
    [discriminate |].
  destruct name as [|a name]; [discriminate |].
  intros Hpre Hslash. apply andb_true_iff in Hpre. destruct Hpre as [Hac Hpre].
  apply Ascii.eqb_eq in Hac. subst a. simpl.
  destruct (Ascii.eqb c "/"); [reflexivity |]. simpl in *. now apply IH.
Qed.

Lemma Path_name_child (p : Path) (name : string) :
  Path_name (make_child_relpath p name) = name.
Proof. unfold Path_name, make_child_relpath; simpl. apply last_last. Qed.

(** The filter of the comprehension compares entry names with the whole
    last token, so a token that holds a slash matches no entry. *)
Lemma path_matches_slash
    (w : W) (dir : Path) (last : string) (l : list string) :
  listdir_plain w -> has_slash last = true ->
  path_matches w dir last = Return l -> l = [].
Proof.
  intros Hplain Hslash. unfold path_matches, Path_iterdir.
  destruct (listdir w (Path_str dir)) as [names|e] eqn:Hls; [| discriminate].
  apply Hplain in Hls.
  assert (Hnone : filter (fun p => PyStr.startswith (Path_name p) last)
                         (map (make_child_relpath dir) names) = []).
  { induction names as [|n names IH]; [reflexivity |].
    simpl in Hls. apply andb_true_iff in Hls. destruct Hls as [Hn Hls].
    cbn [map filter]. rewrite Path_name_child.
    destruct (PyStr.startswith n last) eqn:Hpre.
    - apply startswith_has_slash in Hpre; [| exact Hslash].
      rewrite Hpre in Hn. discriminate.
    - now apply IH. }
  rewrite Hnone. now intros [= <-].
Qed.

Lemma split_on_from_plain (cur s : string) :
  has_slash s = false -> PyStr.split_on_from "/" cur s = [(cur ++ s)%string].
Proof.
  revert cur. induction s as [|c s IH]; intros cur; simpl.
  - now rewrite append_nil_r.
  - intros Hs. apply orb_false_iff in Hs. destruct Hs as [Hc Hs].
    rewrite Hc, (IH _ Hs). now rewrite append_assoc.
Qed.

(** For a last token without a slash the code offers what the
    specification describes. *)
Lemma candidates_cd_plain
    (w : W) (b : dict ShellCommand) (before : list string) (last : string) :
  has_slash last = false ->
  candidates w b (before ++ ["cd"; last]) = spec_cd_candidates w last.
Proof.
  intros Hplain. unfold candidates, spec_cd_candidates, PyStr.split_on.
  rewrite (@split_on_from_plain "" last Hplain). cbn [List.last append].
  assert (Hlast : List.last (before ++ ["cd"; last]) "" = last).
  { change (before ++ ["cd"; last])%list
      with (before ++ ["cd"] ++ [last])%list.
    rewrite app_assoc. apply last_last. }
  assert (Hnth : nth (List.length (before ++ ["cd"; last]) - 2)
                     (before ++ ["cd"; last]) "" = "cd").
  { rewrite length_app. cbn [List.length].
    replace (List.length before + 2 - 2) with (List.length before + 0) by lia.
    now rewrite app_nth2_plus. }
  destruct (before ++ ["cd"; last])%list as [|t0 [|t1 ts]] eqn:E.
  - now destruct before.
  - destruct before as [|? [|? ?]]; discriminate.
  - now rewrite Hlast, Hnth.
Qed.

Lemma candidates_cd_slash
    (w : W) (b : dict ShellCommand) (before : list string)
    (last : string) (l : list string) :
  listdir_plain w -> has_slash last = true ->
  candidates w b (before ++ ["cd"; last]) = Return l -> l = [].
Proof.
  intros Hplain Hslash. unfold candidates.
  assert (Hlast : List.last (before ++ ["cd"; last]) "" = last).
  { change (before ++ ["cd"; last])%list
      with (before ++ ["cd"] ++ [last])%list.
    rewrite app_assoc. apply last_last. }
  destruct (before ++ ["cd"; last])%list as [|t0 [|t1 ts]] eqn:E.
  - now destruct before.
  - destruct before as [|? [|? ?]]; discriminate.
  - rewrite Hlast.
    destruct (nth _ _ "" =? "cd")%string.
    + destruct (cd_directory w last) as [dir|e]; [| discriminate].
      now apply path_matches_slash.
    + now apply path_matches_slash.
Qed.

End Facts.

(** * The program on concrete inputs *)

(** C1, where it fails as stated: the line [exit] is dispatched to a
    builtin and control does not come back to the prompt.  The loop ends
    there, with exit code 0, and the next line is never read. *)
Lemma processinput_exit_leaves_loop :
  processinput Shell_init "exit" (Demo.start Demo.home_usual)
    = (Raise (SystemExit 0), Demo.start Demo.home_usual)
  /\ run Shell_init ["exit"; "echo hi"] (Demo.start Demo.home_usual)
     = (Raise (SystemExit 0), mkProcess Demo.home_usual "$ ").
Proof. split; vm_compute; reflexivity. Qed.

(** C2, where it fails as stated: with PATH unset, and with PATH empty,
    [findinpath] does not return [None] for a name that is an executable
    file of the current directory; it returns the bare name. *)
Lemma findinpath_without_PATH_finds_local :
  environ_PATH Demo.home_nopath = None
  /\ findinpath Demo.home_nopath "run.sh" = Some "run.sh"
  /\ environ_PATH Demo.home_emptypath = Some ""
  /\ findinpath Demo.home_emptypath "run.sh" = Some "run.sh".
Proof. repeat split; vm_compute; reflexivity. Qed.

(** C7, on the buffer [cd src/ma] in a directory that holds [src/main.py].
    The [cd] branch resolves the token to [src/ma], falls back to the
    directory [src], and lists it; the entry [main.py] starts with the
    last component [ma], but the filter asks for names that start with the
    whole token [src/ma].  No candidate is left, where the specification
    has [src/main.py]. *)
Theorem complete_cd_fragment_with_slash :
  let w := Demo.home_usual in
  let self := Completer_init (builtins Shell_init) in
  PyStr.split "cd src/ma" = ["cd"; "src/ma"]
  /\ cd_directory w "src/ma" = Return (mkPath false ["src"])
  /\ Path_iterdir w (mkPath false ["src"])
     = Return [mkPath false ["src"; "main.py"]]
  /\ PyStr.startswith "main.py" "ma" = true
  /\ PyStr.startswith "main.py" "src/ma" = false
  /\ spec_cd_candidates w "src/ma" = Return ["src/main.py"]
  /\ candidates w (builtins Shell_init) ["cd"; "src/ma"] = Return []
  /\ complete w self "cd src/ma" 0
     = (Return None, mkCompleter (builtins Shell_init) (Some [])).
Proof. repeat split; vm_compute; reflexivity. Qed.

(** The same for an absolute fragment: [cd /us] offers nothing although
    the root directory holds [usr]. *)
Lemma complete_cd_absolute_fragment :
  Path_iterdir Demo.home_usual Path_root
    = Return [mkPath true ["usr"]; mkPath true ["root"]; mkPath true ["home"]]
  /\ fst (complete Demo.home_usual (Completer_init (builtins Shell_init))
            "cd /us" 0) = Return None.
Proof. split; vm_compute; reflexivity. Qed.

(** A token without a slash is completed: [cd sr] offers [src/]. *)
Lemma complete_cd_plain_fragment :
  complete Demo.home_usual (Completer_init (builtins Shell_init)) "cd sr" 0
  = (Return (Some "src/"), mkCompleter (builtins Shell_init) (Some ["src/"])).
Proof. vm_compute. reflexivity. Qed.

Lemma demo_listdir_plain (w : Demo.world) : listdir_plain w.
Proof.
  intros p names. cbn [listdir Demo.demo_os].
  unfold Demo.demo_listdir.
  destruct (negb (p =? "")%string
            && Demo.blocked (Demo.normalize (Demo.cwd w) p));
    [discriminate |].
  destruct (Demo.stat w p) as [[| | |]|]; try discriminate.
  intros [= <-]. unfold Demo.entries.
  apply forallb_forall. intros n Hin.
  apply in_map_iff in Hin. destruct Hin as (e & <- & Hin).
  apply filter_In in Hin. destruct Hin as [Hin _].
  revert e Hin. apply Forall_forall. vm_compute.
  repeat constructor.
Qed.

(** ** Instances of the conditional statements *)


(** [pwd] and [cd nosuch] in the home directory: [os.getcwd] succeeds, and
    [os.chdir] fails with a [FileNotFoundError]; both lines return. *)
Lemma processinput_dispatch_demo :
  fst (processinput Shell_init "pwd" (Demo.start Demo.home_usual)) = Return tt
  /\ fst (processinput Shell_init "cd nosuch" (Demo.start Demo.home_usual))
     = Return tt.
Proof.
  split.
  - pose proof (@processinput_dispatch Demo.world Demo.demo_os
                  Shell_init "pwd" (Demo.start Demo.home_usual)) as Hd.
    cbv zeta in Hd. destruct Hd as (_ & _ & _ & Hd).
    change (PyStr.split (PyStr.strip "pwd")) with ["pwd"] in Hd.
    destruct Hd as (_ & _ & Hpwd & _).
    apply Hpwd; [reflexivity |]. now exists "/home/user".
  - pose proof (@processinput_dispatch Demo.world Demo.demo_os
                  Shell_init "cd nosuch" (Demo.start Demo.home_usual)) as Hd.
    cbv zeta in Hd. destruct Hd as (_ & _ & _ & Hd).
    change (PyStr.split (PyStr.strip "cd nosuch")) with ["cd"; "nosuch"] in Hd.
    destruct Hd as (_ & _ & _ & Hcd & _).
    apply Hcd; [reflexivity |].
    intros e He. injection He as <-. reflexivity.
Defined.

(** [cd nosuch] in the home directory. *)
Lemma CdCommand_execute_failure_demo :
  CdCommand_execute ["nosuch"] (Demo.start Demo.home_usual)
    = (Return tt,
       mkProcess Demo.home_usual
         ("cd: nosuch: No such file or directory" ++ newline))
  /\ getcwd (world (snd (CdCommand_execute ["nosuch"]
                           (Demo.start Demo.home_usual))))
     = Return "/home/user"
  /\ PyStr.startswith
       ("cd: nosuch: No such file or directory" ++ newline) "cd: " = true
  /\ (count_newlines "nosuch" = 0 ->
      count_newlines "No such file or directory" = 0 ->
      count_newlines ("cd: nosuch: No such file or directory" ++ newline) = 1)
  /\ (forall inputstr : string,
        PyStr.split (PyStr.strip inputstr) = ["cd"; "nosuch"] ->
        ["nosuch"] <> [] -> FileNotFoundError <> OtherOSError ->
        count_newlines ("cd: nosuch: No such file or directory" ++ newline)
        = 1).
Proof.
  exact (@CdCommand_execute_failure Demo.world Demo.demo_os
           ["nosuch"] (Demo.start Demo.home_usual) FileNotFoundError
           "[Errno 2] No such file or directory: 'nosuch'" eq_refl).
Defined.

(** The buffer [e]: the first call stores [exit] and [echo]. *)
Lemma complete_serves_cache_demo :
  let self' := mkCompleter (builtins Shell_init) (Some ["exit"; "echo"]) in
  exists l : list string,
    candidates Demo.home_usual (builtins Shell_init) (PyStr.split "e")
      = Return l
    /\ matches self' = Some l
    /\ Some "exit" = nth_error l 0
    /\ forall (w' : Demo.world) (text' : string) (n : Z),
         (0 < n)%Z ->
         complete w' self' text' n
           = (Return (nth_error l (Z.to_nat n)), self')
         /\ ((Z.of_nat (List.length l) <= n)%Z <->
             nth_error l (Z.to_nat n) = None).
Proof.
  exact (@complete_serves_cache Demo.world Demo.demo_os
           Demo.home_usual (Completer_init (builtins Shell_init))
           (mkCompleter (builtins Shell_init) (Some ["exit"; "echo"]))
           "e" (Some "exit") eq_refl).
Defined.

(** A first call with state 1. *)
Lemma complete_before_first_cycle_demo :
  complete Demo.home_usual (Completer_init (builtins Shell_init)) "e" 1
  = (Raise (AttributeError "'Completer' object has no attribute 'matches'"),
     Completer_init (builtins Shell_init)).
Proof.
  apply (@complete_before_first_cycle Demo.world Demo.demo_os
           Demo.home_usual (builtins Shell_init) "e" 1%Z).
  reflexivity.
Defined.

(** [/usr/bin/ls] with the usual PATH. *)
Lemma findinpath_absolute_name_demo :
  (forall d : string, os_path_join d "/usr/bin/ls" = "/usr/bin/ls")
  /\ findinpath Demo.home_usual "/usr/bin/ls" = Some "/usr/bin/ls"
  /\ forall (inputstr : string) (cmdargs : list string)
            (p : process Demo.world),
       world p = Demo.home_usual ->
       PyStr.split (PyStr.strip inputstr) = "/usr/bin/ls" :: cmdargs ->
       processinput Shell_init inputstr p
       = executeexternalcommand ("/usr/bin/ls" :: cmdargs) p.
Proof.
  refine (@findinpath_absolute_name Demo.world Demo.demo_os
            Demo.home_usual "/usr/bin/ls" "/usr/local/bin:/usr/bin"
            eq_refl eq_refl _ eq_refl eq_refl).
  discriminate.
Defined.

(** * Further properties of the program *)

Section Coverage.

Context {W : Type} `{OS W}.

(** ** Tokens *)

Lemma split_from_all_space (cur s : string) :
  all_space s = true -> PyStr.split_from cur s = PyStr.flush cur.
Proof.
  revert cur. induction s as [|c s IH]; intros cur; simpl; [reflexivity |].
  intros Hs. apply andb_true_iff in Hs. destruct Hs as [Hc Hs].
  rewrite Hc, (IH "" Hs). unfold PyStr.flush at 2. simpl.
  apply app_nil_r.
Qed.

Lemma split_from_token (cur t s : string) :
  no_space t = true ->
  PyStr.split_from cur (t ++ s) = PyStr.split_from (cur ++ t) s.
Proof.
  revert cur. induction t as [|c t IH]; intros cur; simpl.
  - now rewrite append_nil_r.
  - intros Ht. apply andb_true_iff in Ht. destruct Ht as [Hc Ht].
    apply negb_true_iff in Hc. rewrite Hc, (IH _ Ht).
    now rewrite append_assoc.
Qed.

Lemma split_from_append_space (cur s t : string) :
  all_space t = true ->
  PyStr.split_from cur (s ++ t) = PyStr.split_from cur s.
Proof.
  intros Ht. revert cur. induction s as [|c s IH]; intros cur; simpl.
  - now apply split_from_all_space.
  - destruct (PyStr.isspace c); now rewrite IH.
Qed.

Lemma flush_token (t : string) : t <> "" -> PyStr.flush t = [t].
Proof.
  intros Ht. unfold PyStr.flush. apply String.eqb_neq in Ht. now rewrite Ht.
Qed.

Lemma concat_cons_cons (sep x y : string) (l : list string) :
  String.concat sep (x :: y :: l)
  = (x ++ sep ++ String.concat sep (y :: l))%string.
Proof. reflexivity. Qed.

Lemma split_from_space (cur s : string) :
  PyStr.split_from cur (String " " s)
  = (PyStr.flush cur ++ PyStr.split_from "" s)%list.
Proof. reflexivity. Qed.

Lemma split_join (ts : list string) :
  Forall is_token ts -> PyStr.split (PyStr.join " " ts) = ts.
Proof.
  unfold PyStr.split, PyStr.join.
  induction ts as [|t ts IH]; intros Hts; [reflexivity |].
  apply Forall_cons_iff in Hts. destruct Hts as [[Hne Hns] Hts].
  destruct ts as [|u ts].
  - cbn [String.concat]. rewrite <- (append_nil_r t) at 1.
    rewrite (@split_from_token "" t "" Hns). simpl. now apply flush_token.
  - rewrite concat_cons_cons, (@split_from_token "" t _ Hns).
    cbn [append]. rewrite split_from_space, (flush_token Hne), (IH Hts).
    reflexivity.
Qed.

Lemma count_newlines_join (ts : list string) :
  Forall is_token ts -> count_newlines (PyStr.join " " ts) = 0.
Proof.
  unfold PyStr.join. induction ts as [|t ts IH]; intros Hts; [reflexivity |].
  apply Forall_cons_iff in Hts. destruct Hts as [[_ Hns] Hts].
  destruct ts as [|u ts].
  - now apply no_space_no_newline.
  - rewrite concat_cons_cons, !count_newlines_append,
      (no_space_no_newline _ Hns), (IH Hts).
    reflexivity.
Qed.

(** X1. A line of whitespace only has no tokens, and [processinput] does
    nothing with it: no output, the world untouched, a normal return. *)
Theorem processinput_blank_line
    (self : Shell) (inputstr : string) (p : process W) :
  all_space inputstr = true ->
  PyStr.split (PyStr.strip inputstr) = []
  /\ processinput self inputstr p = (Return tt, p).
Proof.
  intros Hblank.
  assert (Htokens : PyStr.split (PyStr.strip inputstr) = []).
  { rewrite split_strip. unfold PyStr.split.
    now rewrite split_from_all_space. }
  split; [exact Htokens |].
  unfold processinput. now rewrite Htokens.
Qed.

(** X2. For a line whose first token is [echo], the shell prints the other
    tokens joined by single spaces, however much whitespace the line had
    between them, as exactly one line; it returns and leaves the world as
    it was.  What it prints splits back into the same arguments. *)
Theorem processinput_echo
    (inputstr : string) (args : list string) (p : process W) :
  PyStr.split inputstr = "echo" :: args ->
  processinput Shell_init inputstr p
    = (Return tt,
       mkProcess (world p) (stdout p ++ PyStr.join " " args ++ newline))
  /\ count_newlines (PyStr.join " " args ++ newline) = 1
  /\ PyStr.split (PyStr.join " " args ++ newline) = args.
Proof.
  intros Htokens.
  pose proof (split_tokens inputstr) as Htok. rewrite Htokens in Htok.
  apply Forall_inv_tail in Htok.
  split; [| split].
  - rewrite processinput_cases, split_strip, Htokens.
    rewrite builtins_Shell_init. cbn [dict_get String.eqb Ascii.eqb Bool.eqb].
    reflexivity.
  - rewrite count_newlines_append, (count_newlines_join Htok). reflexivity.
  - unfold PyStr.split. rewrite split_from_append_space by reflexivity.
    now apply split_join.
Qed.

(** ** The registry *)

Lemma dict_get_set {V : Type} (d : dict V) (k : string) (v : V) (k' : string) :
  dict_get (dict_set d k v) k'
  = if (k =? k')%string then Some v else dict_get d k'.
Proof.
  induction d as [|[k0 v0] d IH]; simpl; [reflexivity |].
  destruct (String.eqb_spec k0 k) as [->|Hk0]; simpl.
  - destruct (String.eqb_spec k k'); reflexivity.
  - rewrite IH. destruct (String.eqb_spec k0 k') as [->|_]; [| reflexivity].
    apply String.eqb_neq in Hk0. rewrite String.eqb_sym in Hk0.
    now rewrite Hk0.
Qed.

Lemma dict_in_keys {V : Type} (d : dict V) (k : string) :
  dict_in k d = true <-> In k (dict_keys d).
Proof.
  unfold dict_in. induction d as [|[k0 v0] d IH]; simpl.
  - split; [discriminate | contradiction].
  - destruct (String.eqb_spec k0 k) as [->|Hk0].
    + split; [now left | reflexivity].
    + rewrite IH. split; [now right | now intros [? | ?]].
Qed.

Lemma dict_keys_set {V : Type} (d : dict V) (k : string) (v : V) :
  dict_keys (dict_set d k v)
  = if dict_in k d then dict_keys d else (dict_keys d ++ [k])%list.
Proof.
  unfold dict_in. induction d as [|[k0 v0] d IH]; simpl; [reflexivity |].
  destruct (String.eqb_spec k0 k) as [->|Hk0]; simpl; [reflexivity |].
  rewrite IH. now destruct (dict_get d k).
Qed.

Lemma dict_set_NoDup {V : Type} (d : dict V) (k : string) (v : V) :
  NoDup (dict_keys d) -> NoDup (dict_keys (dict_set d k v)).
Proof.
  intros Hd. rewrite dict_keys_set.
  destruct (dict_in k d) eqn:E; [exact Hd |].
  apply NoDup_app; [exact Hd | repeat constructor; intros [] |].
  intros x Hx [<- | []]. apply dict_in_keys in Hx. congruence.
Qed.

(** X3. Whatever the registry holds before, [initializebuiltins] binds the
    five names [exit], [echo], [pwd], [cd] and [type] to their commands and
    leaves every other key as it was; it adds no key twice; and from the
    empty registry it gives the five names in this order. *)
Theorem initializebuiltins_registry (b : dict ShellCommand) :
  (forall k : string,
     dict_get (initializebuiltins b) k
     = if ("type" =? k)%string then Some TypeCommand
       else if ("cd" =? k)%string then Some CdCommand
       else if ("pwd" =? k)%string then Some PwdCommand
       else if ("echo" =? k)%string then Some EchoCommand
       else if ("exit" =? k)%string then Some ExitCommand
       else dict_get b k)
  /\ (NoDup (dict_keys b) -> NoDup (dict_keys (initializebuiltins b)))
  /\ dict_keys (initializebuiltins []) = ["exit"; "echo"; "pwd"; "cd"; "type"].
Proof.
  unfold initializebuiltins, dict_update. cbn [fold_left fst snd].
  split; [| split].
  - intros k. now rewrite !dict_get_set.
  - intros Hb. now repeat apply dict_set_NoDup.
  - reflexivity.
Qed.

(** ** [cd] and [pwd] *)

Lemma dispatch_builtin
    (inputstr name : string) (args : list string) (c : ShellCommand)
    (p : process W) :
  PyStr.split inputstr = name :: args ->
  dict_get (builtins Shell_init) name = Some c ->
  processinput Shell_init inputstr p
  = execute (builtins Shell_init) c args p.
Proof.
  intros Htokens Hget.
  now rewrite processinput_cases, split_strip, Htokens, Hget.
Qed.

(** X4. When the directory change succeeds, [cd] prints nothing and the
    process is in the world [os.chdir] gave (with no argument the target is
    the home directory).  A [pwd] on the next line then prints what
    [os.getcwd] returns in that new world, on one line of its own; when
    [os.getcwd] raises there (the directory entered has been removed),
    [pwd] prints nothing and the exception leaves [processinput]. *)
Theorem cd_then_pwd
    (l1 l2 : string) (args rest : list string) (p : process W) (w' : W) :
  PyStr.split l1 = "cd" :: args ->
  PyStr.split l2 = "pwd" :: rest ->
  chdir (world p)
    match args with a :: _ => a | [] => expanduser_home (world p) end
  = Return w' ->
  processinput Shell_init l1 p = (Return tt, mkProcess w' (stdout p))
  /\ (processinput Shell_init l1 ;; processinput Shell_init l2) p
     = match getcwd w' with
       | Return d =>
           (Return tt, mkProcess w' (stdout p ++ d ++ newline))
       | Raise e => (Raise e, mkProcess w' (stdout p))
       end.
Proof.
  intros H1 H2 Hcd.
  assert (Hfirst : processinput Shell_init l1 p
                   = (Return tt, mkProcess w' (stdout p))).
  { rewrite (dispatch_builtin _ p H1 (c := CdCommand)) by reflexivity.
    cbn [execute]. unfold CdCommand_execute, try_except, os_chdir.
    now rewrite Hcd. }
  split; [exact Hfirst |].
  unfold bind. rewrite Hfirst.
  rewrite (dispatch_builtin _ _ H2 (c := PwdCommand)) by reflexivity.
  cbn [execute]. unfold PwdCommand_execute. cbn [world].
  now destruct (getcwd w').
Qed.

(** ** External commands that cannot be launched *)

(** X5. When the launch itself fails with an [OSError], the shell survives:
    [executeexternalcommand] returns after one line, which is
    [name: command not found] for a [FileNotFoundError] (the same line as
    for a name that [findinpath] does not resolve) and
    [Error executing name: text] for any other [OSError]. *)
Theorem executeexternalcommand_launch_failure
    (name : string) (args : list string) (p : process W) (w' : W)
    (c : oserror_class) (msg : string) :
  spawn (world p) (name :: args) = (w', Raise (OSError c msg)) ->
  executeexternalcommand (name :: args) p
  = (Return tt,
     mkProcess w'
       (stdout p
        ++ match c with
           | FileNotFoundError => name ++ ": command not found"
           | _ => "Error executing " ++ name ++ ": " ++ msg
           end ++ newline)).
Proof.
  intros Hspawn.
  unfold executeexternalcommand, try_except, bind, subprocess_run.
  rewrite Hspawn. cbn [List.hd].
  destruct c; unfold print, print_end; simpl; now str_norm.
Qed.

(** ** What a line can change *)

Lemma TypeCommand_execute_cases
    (b : dict ShellCommand) (name : string) (rest : list string)
    (p : process W) :
  TypeCommand_execute b (name :: rest) p
  = (Return tt,
     mkProcess (world p)
       (stdout p ++ name
        ++ (if dict_in name b then " is a shell builtin"
            else match findinpath (world p) name with
                 | Some path => " is " ++ path
                 | None => ": not found"
                 end) ++ newline)).
Proof.
  unfold TypeCommand_execute, bind, print_end; simpl.
  destruct (dict_in name b).
  - unfold print, print_end; simpl. now str_norm.
  - rewrite truthy_findinpath. unfold print, print_end; simpl.
    destruct (findinpath (world p) name) as [path|]; now str_norm.
Qed.

Lemma ExitCommand_execute_world (args : list string) (p : process W) :
  world (snd (ExitCommand_execute args p)) = world p.
Proof.
  unfold ExitCommand_execute, try_except, bind, int_of_str.
  destruct args as [|a rest]; [reflexivity |].
  now destruct (PyStr.int a).
Qed.

(** X6. A line changes the world (the working directory included) only if
    its first token is [cd], or is no builtin and is resolved by
    [findinpath], so that a child is launched.  [exit], [echo], [pwd],
    [type] and a name that is not found leave it as it was. *)
Theorem processinput_world_change (inputstr : string) (p : process W) :
  world (snd (processinput Shell_init inputstr p)) <> world p ->
  exists (cmdname : string) (cmdargs : list string),
    PyStr.split inputstr = cmdname :: cmdargs
    /\ (cmdname = "cd"
        \/ (dict_get (builtins Shell_init) cmdname = None
            /\ findinpath (world p) cmdname <> None)).
Proof.
  rewrite processinput_cases, split_strip.
  destruct (PyStr.split inputstr) as [|cmdname cmdargs];
    [intros Hne; now contradiction Hne |].
  intros Hne. exists cmdname, cmdargs. split; [reflexivity |].
  destruct (dict_get (builtins Shell_init) cmdname) as [command|] eqn:Hget.
  - apply dict_get_Shell_init in Hget.
    destruct Hget as [[-> ->]|[[-> ->]|[[-> ->]|[[-> ->]|[-> ->]]]]];
      cbn [execute] in Hne.
    + now rewrite ExitCommand_execute_world in Hne.
    + now contradiction Hne.
    + unfold PwdCommand_execute in Hne.
      destruct (getcwd (world p)); now contradiction Hne.
    + now left.
    + destruct cmdargs as [|name rest]; [now contradiction Hne |].
      rewrite TypeCommand_execute_cases in Hne. now contradiction Hne.
  - right. split; [reflexivity |].
    destruct (findinpath (world p) cmdname); [discriminate |].
    now contradiction Hne.
Qed.

(** X7. [type] and the dispatch agree on every name.  For a builtin name
    [type] says so and the line runs the builtin, also when PATH holds an
    executable of that name; for a name that [findinpath] resolves [type]
    shows the path and the line is launched as an external command; and a
    name for which [type] prints [not found] gets [command not found]. *)
Theorem type_agrees_with_dispatch
    (l1 l2 name : string) (rest args : list string) (p : process W) :
  PyStr.split l1 = "type" :: name :: rest ->
  PyStr.split l2 = name :: args ->
  match dict_get (builtins Shell_init) name with
  | Some c =>
      processinput Shell_init l1 p
      = (Return tt,
         mkProcess (world p)
           (stdout p ++ name ++ " is a shell builtin" ++ newline))
      /\ processinput Shell_init l2 p
         = execute (builtins Shell_init) c args p
  | None =>
      match findinpath (world p) name with
      | Some path =>
          processinput Shell_init l1 p
          = (Return tt,
             mkProcess (world p)
               (stdout p ++ name ++ " is " ++ path ++ newline))
          /\ processinput Shell_init l2 p
             = executeexternalcommand (name :: args) p
      | None =>
          processinput Shell_init l1 p
          = (Return tt,
             mkProcess (world p) (stdout p ++ name ++ ": not found" ++ newline))
          /\ processinput Shell_init l2 p
             = (Return tt,
                mkProcess (world p)
                  (stdout p ++ name ++ ": command not found" ++ newline))
      end
  end.
Proof.
  intros H1 H2.
  rewrite (dispatch_builtin _ p H1 (c := TypeCommand)) by reflexivity.
  cbn [execute]. rewrite TypeCommand_execute_cases.
  rewrite (processinput_cases Shell_init l2), split_strip, H2.
  unfold dict_in.
  destruct (dict_get (builtins Shell_init) name) as [c|].
  - split; [now str_norm | reflexivity].
  - destruct (findinpath (world p) name) as [path|];
      (split; [now str_norm | reflexivity]).
Qed.

(** ** The loop *)



(** ** Completion candidates *)

Lemma Path_iterdir_dot (w : W) (names : list string) :
  listdir w "." = Return names ->
  Path_iterdir w Path_dot = Return (map (make_child_relpath Path_dot) names).
Proof. intros Hls. unfold Path_iterdir. cbn. now rewrite Hls. Qed.

Lemma map_Path_name_children (p : Path) (names : list string) :
  map Path_name (map (make_child_relpath p) names) = names.
Proof.
  induction names as [|n names IH]; [reflexivity |].
  cbn [map]. now rewrite Path_name_child, IH.
Qed.

Lemma startswith_append_r (s t p : string) :
  PyStr.startswith s p = true -> PyStr.startswith (s ++ t) p = true.
Proof.
  revert s. induction p as [|a p IH]; intros s; simpl; [reflexivity |].
  destruct s as [|b s]; [discriminate |]. simpl.
  intros Hs. apply andb_true_iff in Hs. destruct Hs as [Hb Hs].
  now rewrite Hb, (IH _ Hs).
Qed.

Lemma map_result_Return {A B : Type}
    (f : A -> result B) (xs : list A) (l : list B) :
  map_result f xs = Return l ->
  forall y, In y l -> exists x, In x xs /\ f x = Return y.
Proof.
  revert l. induction xs as [|x xs IH]; intros l; simpl.
  - intros [= <-] y [].
  - destruct (f x) as [y0|e] eqn:Hx; [| discriminate].
    destruct (map_result f xs) as [ys|e]; [| discriminate].
    intros [= <-] y [<- | Hy].
    + exists x. split; [now left | exact Hx].
    + destruct (IH ys eq_refl y Hy) as (x' & Hin & Hfx).
      exists x'. split; [now right | exact Hfx].
Qed.

Lemma map_result_Raise {A B : Type}
    (f : A -> result B) (xs : list A) (e : exn) :
  map_result f xs = Raise e -> exists x, In x xs /\ f x = Raise e.
Proof.
  induction xs as [|x xs IH]; simpl; [discriminate |].
  destruct (f x) as [y0|e0] eqn:Hx.
  - destruct (map_result f xs) as [ys|e1]; [discriminate |].
    intros [= <-]. destruct (IH eq_refl) as (x' & Hin & Hfx).
    exists x'. split; [now right | exact Hfx].
  - intros [= <-]. exists x. split; [now left | exact Hx].
Qed.

(** Listing the directory [dir] for the token [last], given its entries;
    [path n] is the path of the entry [n] as a string. *)
Lemma path_matches_listing
    (w : W) (dir : Path) (last : string) (names : list string)
    (path : string -> string) :
  listdir w (Path_str dir) = Return names ->
  (forall n, Path_str (make_child_relpath dir n) = path n) ->
  path_matches w dir last
  = map_result (fun n => path_candidate w (path n))
               (filter (fun n => PyStr.startswith n last) names).
Proof.
  intros Hls Hpath. unfold path_matches, Path_iterdir. rewrite Hls.
  clear Hls. induction names as [|n names IH]; [reflexivity |].
  cbn [map filter]. rewrite Path_name_child.
  destruct (PyStr.startswith n last); [| exact IH].
  cbn [map_result]. rewrite IH.
  unfold entry_candidate, path_candidate, Path_is_dir. now rewrite Hpath.
Qed.

Lemma path_matches_dot (w : W) (last : string) (names : list string) :
  listdir w "." = Return names ->
  path_matches w Path_dot last
  = map_result (path_candidate w)
               (filter (fun n => PyStr.startswith n last) names).
Proof.
  intros Hls.
  now rewrite (@path_matches_listing w Path_dot last names (fun n => n)).
Qed.

Lemma path_candidate_startswith (w : W) (n c last : string) :
  PyStr.startswith n last = true ->
  path_candidate w n = Return c -> PyStr.startswith c last = true.
Proof.
  intros Hn. unfold path_candidate.
  destruct (fs_is_dir w n) as [[|]|e]; intros [= <-];
    [now apply startswith_append_r | exact Hn].
Qed.

(** X9. On a buffer of whitespace only, the first call of a completion
    cycle stores the names of all builtins, in the order of the registry,
    followed by the names of the entries of the current directory, and
    returns the first of them; every builtin name is among the
    candidates. *)
Theorem complete_blank_buffer
    (w : W) (self : Completer) (text : string) (names : list string) :
  all_space text = true ->
  listdir w "." = Return names ->
  let l := (dict_keys (completer_builtins self) ++ names)%list in
  complete w self text 0
  = (Return (nth_error l 0),
     mkCompleter (completer_builtins self) (Some l))
  /\ (forall k : string,
        dict_in k (completer_builtins self) = true -> In k l).
Proof.
  intros Hblank Hls l. split.
  - unfold complete. cbn [Z.eqb]. unfold PyStr.split.
    rewrite (@split_from_all_space "" text Hblank).
    cbn [PyStr.flush String.eqb].
    cbn [candidates]. rewrite (Path_iterdir_dot _ Hls).
    rewrite map_Path_name_children. fold l.
    destruct l as [|c l']; reflexivity.
  - intros k Hk. apply in_or_app. left. now apply dict_in_keys.
Qed.

(** X10. With one token in the buffer the candidates are the builtin
    names and then the names of the entries of the current directory that
    start with the token: every candidate starts with what was typed, and
    no builtin or entry that does is left out. *)
Theorem candidates_one_token
    (w : W) (b : dict ShellCommand) (part : string) (names : list string) :
  listdir w "." = Return names ->
  let l := (filter (fun c => PyStr.startswith c part) (dict_keys b)
            ++ filter (fun n => PyStr.startswith n part) names)%list in
  candidates w b [part] = Return l
  /\ (forall c : string,
        In c l <->
        PyStr.startswith c part = true
        /\ (In c (dict_keys b) \/ In c names)).
Proof.
  intros Hls l. split.
  - cbn [candidates]. rewrite (Path_iterdir_dot _ Hls).
    now rewrite map_Path_name_children.
  - intros c. subst l. rewrite in_app_iff, !filter_In. tauto.
Qed.

(** X11. With two or more tokens, the one before the last not being [cd],
    the candidates depend on the last token alone: the entries of the
    current directory whose names start with it are taken in the order of
    the listing, each is asked whether it is a directory and gets a slash
    after its name if so, and the first exception of such a question ends
    the call.  Every candidate starts with the last token. *)
Theorem candidates_other_command
    (w : W) (b : dict ShellCommand) (before : list string)
    (cmdtok last : string) (names : list string) :
  cmdtok <> "cd" ->
  listdir w "." = Return names ->
  candidates w b (before ++ [cmdtok; last])
  = map_result (path_candidate w)
               (filter (fun n => PyStr.startswith n last) names)
  /\ (forall l : list string,
        candidates w b (before ++ [cmdtok; last]) = Return l ->
        forall c : string, In c l -> PyStr.startswith c last = true).
Proof.
  intros Hcmd Hls.
  assert (Heq : candidates w b (before ++ [cmdtok; last])
                = map_result (path_candidate w)
                    (filter (fun n => PyStr.startswith n last) names)).
  { unfold candidates.
    assert (Hlast : List.last (before ++ [cmdtok; last]) "" = last).
    { change (before ++ [cmdtok; last])%list
        with (before ++ [cmdtok] ++ [last])%list.
      rewrite app_assoc. apply last_last. }
    assert (Hnth : nth (List.length (before ++ [cmdtok; last]) - 2)
                       (before ++ [cmdtok; last]) "" = cmdtok).
    { rewrite length_app. cbn [List.length].
      replace (List.length before + 2 - 2)
        with (List.length before + 0) by lia.
      now rewrite app_nth2_plus. }
    destruct (before ++ [cmdtok; last])%list as [|t0 [|t1 ts]] eqn:E.
    - now destruct before.
    - destruct before as [|? [|? ?]]; discriminate.
    - rewrite Hlast, Hnth. apply String.eqb_neq in Hcmd. rewrite Hcmd.
      now apply path_matches_dot. }
  split; [exact Heq |].
  intros l Hl c Hin. rewrite Heq in Hl.
  destruct (map_result_Return _ _ Hl c Hin) as (n & Hn & Hc).
  apply filter_In in Hn. destruct Hn as [_ Hn].
  exact (path_candidate_startswith w n last Hn Hc).
Qed.

Lemma candidates_after_cd
    (w : W) (b : dict ShellCommand) (before : list string) (last : string) :
  candidates w b (before ++ ["cd"; last])
  = match cd_directory w last with
    | Raise e => Raise e
    | Return current_path => path_matches w current_path last
    end.
Proof.
  unfold candidates.
  assert (Hlast : List.last (before ++ ["cd"; last]) "" = last).
  { change (before ++ ["cd"; last])%list
      with (before ++ ["cd"] ++ [last])%list.
    rewrite app_assoc. apply last_last. }
  assert (Hnth : nth (List.length (before ++ ["cd"; last]) - 2)
                     (before ++ ["cd"; last]) "" = "cd").
  { rewrite length_app. cbn [List.length].
    replace (List.length before + 2 - 2) with (List.length before + 0) by lia.
    now rewrite app_nth2_plus. }
  destruct (before ++ ["cd"; last])%list as [|t0 [|t1 ts]] eqn:E.
  - now destruct before.
  - destruct before as [|? [|? ?]]; discriminate.
  - now rewrite Hlast, Hnth.
Qed.

Lemma has_slash_startswith (s : string) :
  has_slash s = false -> PyStr.startswith s "/" = false.
Proof.
  destruct s as [|c s]; [reflexivity |]. simpl.
  intros Hs. apply orb_false_iff in Hs. destruct Hs as [Hc _].
  now rewrite Hc.
Qed.

(** The path built for a last token without a slash. *)
Lemma cd_fold_plain (last : string) :
  has_slash last = false ->
  fold_left cd_step (PyStr.split_on "/" last) Path_dot
  = if (last =? "..")%string || (last =? "")%string || (last =? ".")%string
    then Path_dot else mkPath false [last].
Proof.
  intros Hplain. unfold PyStr.split_on.
  rewrite (@split_on_from_plain "" last Hplain). cbn [append fold_left].
  unfold cd_step.
  destruct (last =? "..")%string; [reflexivity |].
  destruct (last =? "")%string eqn:E1; [reflexivity |].
  destruct (last =? ".")%string eqn:E2; [reflexivity |].
  cbn [negb andb orb]. unfold Path_truediv, parse_parts, PyStr.split_on.
  rewrite (has_slash_startswith _ Hplain).
  rewrite (@split_on_from_plain "" last Hplain). cbn [append filter].
  now rewrite E1, E2.
Qed.

(** X12. After [cd], take a last token without a slash for which [is_dir]
    answers no, in a current directory for which [is_dir] answers at all.
    The token is then completed like the argument of any other command:
    the entries of the current directory whose names start with the token
    are taken in the order of the listing, each is asked whether it is a
    directory and gets a slash after its name if so, and the first
    exception of such a question ends the call. *)
Theorem candidates_cd_not_directory
    (w : W) (b : dict ShellCommand) (before : list string)
    (last : string) (names : list string) (dot : bool) :
  has_slash last = false ->
  fs_is_dir w last = Return false ->
  fs_is_dir w "." = Return dot ->
  listdir w "." = Return names ->
  candidates w b (before ++ ["cd"; last])
  = map_result (path_candidate w)
               (filter (fun n => PyStr.startswith n last) names).
Proof.
  intros Hplain Hnodir Hdot Hls. rewrite candidates_after_cd.
  assert (Hdir : cd_directory w last = Return Path_dot).
  { unfold cd_directory. rewrite (has_slash_startswith _ Hplain).
    rewrite (@cd_fold_plain last Hplain).
    destruct ((last =? "..")%string || (last =? "")%string
              || (last =? ".")%string).
    - change (Path_parent Path_dot) with Path_dot.
      unfold Path_is_dir. cbn [Path_str Path_dot absolute parts].
      rewrite Hdot. now destruct dot.
    - unfold Path_is_dir at 1. cbn [Path_str absolute parts PyStr.join
                                     String.concat].
      rewrite Hnodir.
      change (Path_parent (mkPath false [last])) with Path_dot.
      unfold Path_is_dir. cbn [Path_str Path_dot absolute parts].
      rewrite Hdot. now destruct dot. }
  rewrite Hdir. now apply path_matches_dot.
Qed.

(** X13. After [cd], a last token without a slash for which [is_dir]
    answers yes is not completed to that directory: the completer lists
    the inside of the directory and keeps the entries whose names start
    with the token, that is with the name of the directory itself; each
    is asked, as [token/name], whether it is a directory and is offered
    under that path, with a slash after it if so; the first exception of
    such a question ends the call. *)
Theorem candidates_cd_directory_token
    (w : W) (b : dict ShellCommand) (before : list string)
    (last : string) (names : list string) :
  has_slash last = false ->
  last <> "" -> last <> "." -> last <> ".." ->
  fs_is_dir w last = Return true ->
  listdir w last = Return names ->
  candidates w b (before ++ ["cd"; last])
  = map_result (fun n => path_candidate w (last ++ "/" ++ n))
               (filter (fun n => PyStr.startswith n last) names).
Proof.
  intros Hplain H0 H1 H2 Hdir Hls. rewrite candidates_after_cd.
  assert (Hcd : cd_directory w last = Return (mkPath false [last])).
  { unfold cd_directory. rewrite (has_slash_startswith _ Hplain).
    rewrite (@cd_fold_plain last Hplain).
    apply String.eqb_neq in H0, H1, H2. rewrite H0, H1, H2. cbn [orb].
    unfold Path_is_dir at 1. cbn [Path_str absolute parts PyStr.join
                                   String.concat].
    now rewrite Hdir. }
  rewrite Hcd. apply path_matches_listing; [exact Hls | reflexivity].
Qed.

(** X14. The completer after [cd] reads [..] against the path it has
    built, not against the file system: at the start of a relative
    fragment it changes nothing, so [../t] is resolved like [t], and for
    the fragment [..] the directory listed is the current one, whatever
    [is_dir] answers for it (an exception of that question apart). *)
Theorem cd_directory_dotdot (w : W) (t : string) :
  PyStr.startswith t "/" = false ->
  cd_directory w ("../" ++ t) = cd_directory w t
  /\ cd_directory w ".."
     = match fs_is_dir w "." with
       | Raise e => Raise e
       | Return _ => Return Path_dot
       end.
Proof.
  intros Hrel. split.
  - unfold cd_directory. rewrite Hrel. reflexivity.
  - unfold cd_directory. cbn.
    repeat change (Path_parent Path_dot) with Path_dot.
    unfold Path_is_dir. cbn [Path_str Path_dot absolute parts].
    destruct (fs_is_dir w ".") as [[|]|e]; reflexivity.
Qed.

Lemma cd_directory_Return (w : W) (t : string) (d : Path) :
  cd_directory w t = Return d ->
  d = Path_dot \/ fs_is_dir w (Path_str d) = Return true.
Proof.
  unfold cd_directory.
  match goal with
  | |- context [fold_left cd_step ?l ?s] => generalize (fold_left cd_step l s)
  end.
  intros cur. unfold Path_is_dir.
  destruct (fs_is_dir w (Path_str cur)) as [[|]|e] eqn:Hcur.
  - intros [= <-]. now right.
  - destruct (fs_is_dir w (Path_str (Path_parent cur))) as [[|]|e] eqn:Hpar.
    + intros [= <-]. now right.
    + intros [= <-]. now left.
    + discriminate.
  - discriminate.
Qed.

Lemma cd_directory_Raise (w : W) (t : string) (e : exn) :
  cd_directory w t = Raise e -> exists d : string, fs_is_dir w d = Raise e.
Proof.
  unfold cd_directory.
  match goal with
  | |- context [fold_left cd_step ?l ?s] => generalize (fold_left cd_step l s)
  end.
  intros cur. unfold Path_is_dir.
  destruct (fs_is_dir w (Path_str cur)) as [[|]|e0] eqn:Hcur.
  - discriminate.
  - destruct (fs_is_dir w (Path_str (Path_parent cur))) as [[|]|e1] eqn:Hpar;
      try discriminate.
    intros [= <-]. eauto.
  - intros [= <-]. eauto.
Qed.

Lemma path_matches_Raise (w : W) (dir : Path) (last : string) (e : exn) :
  path_matches w dir last = Raise e ->
  listdir w (Path_str dir) = Raise e
  \/ exists d : string, fs_is_dir w d = Raise e.
Proof.
  unfold path_matches, Path_iterdir.
  destruct (listdir w (Path_str dir)) as [names|e0].
  - intros Hr. right. apply map_result_Raise in Hr.
    destruct Hr as (p & _ & Hp). unfold entry_candidate, Path_is_dir in Hp.
    exists (Path_str p).
    destruct (fs_is_dir w (Path_str p)) as [[|]|e1]; try discriminate.
    now injection Hp as <-.
  - intros [= <-]. now left.
Qed.

(** X15. The first call of a cycle raises only what [os.listdir] or
    [is_dir] raised, and the directory whose listing was asked for is the
    current one or, after [cd], a path for which [is_dir] had answered
    yes.  A last token that merely names nothing makes the completer fall
    back, not fail. *)
Theorem candidates_raise_cause
    (w : W) (b : dict ShellCommand) (parts : list string) (e : exn) :
  candidates w b parts = Raise e ->
  exists d : string,
    (listdir w d = Raise e /\ (d = "." \/ fs_is_dir w d = Return true))
    \/ fs_is_dir w d = Raise e.
Proof.
  assert (Hdot : forall A (k : list Path -> A),
             match Path_iterdir w Path_dot with
             | Raise e' => Raise e'
             | Return ps => Return (k ps)
             end = Raise e ->
             listdir w "." = Raise e).
  { intros A k. unfold Path_iterdir. cbn.
    destruct (listdir w "."); [discriminate | now intros [= ->]]. }
  assert (Hpm : forall dir last,
             dir = Path_dot \/ fs_is_dir w (Path_str dir) = Return true ->
             path_matches w dir last = Raise e ->
             exists d : string,
               (listdir w d = Raise e
                /\ (d = "." \/ fs_is_dir w d = Return true))
               \/ fs_is_dir w d = Raise e).
  { intros dir last Hdir Hr. apply path_matches_Raise in Hr.
    destruct Hr as [Hr | [d Hd]]; [| eauto].
    exists (Path_str dir). left. split; [exact Hr |].
    destruct Hdir as [-> | Hdir]; [now left | now right]. }
  destruct parts as [|t0 [|t1 ts]]; cbn [candidates].
  - intros Hr. exists ".". left. split; [| now left].
    exact (Hdot _ _ Hr).
  - intros Hr. exists ".". left. split; [| now left].
    exact (Hdot _ _ Hr).
  - destruct (nth _ _ "" =? "cd")%string.
    + destruct (cd_directory w (List.last (t0 :: t1 :: ts) ""))
        as [dir|e0] eqn:Hcd.
      * apply Hpm. now apply cd_directory_Return in Hcd.
      * intros [= <-]. apply cd_directory_Raise in Hcd.
        destruct Hcd as [d Hd]. eauto.
    + apply Hpm. now left.
Qed.

End Coverage.

(** ** Instances of the further properties *)

(** A line of three blanks. *)
Lemma processinput_blank_line_demo :
  PyStr.split (PyStr.strip "   ") = []
  /\ processinput Shell_init "   " (Demo.start Demo.home_usual)
     = (Return tt, Demo.start Demo.home_usual).
Proof.
  exact (@processinput_blank_line Demo.world Demo.demo_os
           Shell_init "   " (Demo.start Demo.home_usual) eq_refl).
Defined.

(** [echo] with uneven spacing between its arguments. *)
Lemma processinput_echo_demo :
  processinput Shell_init "  echo   a    b " (Demo.start Demo.home_usual)
    = (Return tt, mkProcess Demo.home_usual ("a b" ++ newline))
  /\ count_newlines ("a b" ++ newline) = 1
  /\ PyStr.split ("a b" ++ newline) = ["a"; "b"].
Proof.
  exact (@processinput_echo Demo.world Demo.demo_os
           "  echo   a    b " ["a"; "b"] (Demo.start Demo.home_usual)
           eq_refl).
Defined.

(** [cd src] and then [pwd], from the home directory. *)
Lemma cd_then_pwd_demo :
  let w' := Demo.mkWorld (Some "/usr/local/bin:/usr/bin")
              ["home"; "user"; "src"] in
  processinput Shell_init "cd src" (Demo.start Demo.home_usual)
    = (Return tt, mkProcess w' "")
  /\ (processinput Shell_init "cd src" ;; processinput Shell_init "pwd")
       (Demo.start Demo.home_usual)
     = (Return tt, mkProcess w' ("/home/user/src" ++ newline)).
Proof.
  exact (@cd_then_pwd Demo.world Demo.demo_os
           "cd src" "pwd" ["src"] [] (Demo.start Demo.home_usual)
           (Demo.mkWorld (Some "/usr/local/bin:/usr/bin")
              ["home"; "user"; "src"])
           eq_refl eq_refl eq_refl).
Defined.

(** A name that cannot be launched. *)
Lemma executeexternalcommand_launch_failure_demo :
  executeexternalcommand ["run.sh"] (Demo.start Demo.home_usual)
  = (Return tt,
     mkProcess Demo.home_usual ("run.sh: command not found" ++ newline)).
Proof.
  exact (@executeexternalcommand_launch_failure Demo.world Demo.demo_os
           "run.sh" [] (Demo.start Demo.home_usual) Demo.home_usual
           FileNotFoundError
           "[Errno 2] No such file or directory: 'run.sh'" eq_refl).
Defined.

(** [cd src] changes the world. *)
Lemma processinput_world_change_demo :
  exists (cmdname : string) (cmdargs : list string),
    PyStr.split "cd src" = cmdname :: cmdargs
    /\ (cmdname = "cd"
        \/ (dict_get (builtins Shell_init) cmdname = None
            /\ findinpath Demo.home_usual cmdname <> None)).
Proof.
  refine (@processinput_world_change Demo.world Demo.demo_os
            "cd src" (Demo.start Demo.home_usual) _).
  intros E. vm_compute in E. discriminate E.
Defined.

(** [type ls] and [ls -l]. *)
Lemma type_agrees_with_dispatch_demo :
  processinput Shell_init "type ls" (Demo.start Demo.home_usual)
    = (Return tt,
       mkProcess Demo.home_usual ("ls is /usr/bin/ls" ++ newline))
  /\ processinput Shell_init "ls -l" (Demo.start Demo.home_usual)
     = executeexternalcommand ["ls"; "-l"] (Demo.start Demo.home_usual).
Proof.
  exact (@type_agrees_with_dispatch Demo.world Demo.demo_os
           "type ls" "ls -l" "ls" [] ["-l"] (Demo.start Demo.home_usual)
           eq_refl eq_refl).
Defined.

(** The blank buffer in the home directory. *)
Lemma complete_blank_buffer_demo :
  let l := ["exit"; "echo"; "pwd"; "cd"; "type";
            "notes.txt"; "run.sh"; "src"] in
  complete Demo.home_usual (Completer_init (builtins Shell_init)) "  " 0
  = (Return (Some "exit"), mkCompleter (builtins Shell_init) (Some l))
  /\ (forall k : string,
        dict_in k (builtins Shell_init) = true -> In k l).
Proof.
  exact (@complete_blank_buffer Demo.world Demo.demo_os
           Demo.home_usual (Completer_init (builtins Shell_init)) "  "
           ["notes.txt"; "run.sh"; "src"] eq_refl eq_refl).
Defined.

(** The buffer [e] in the home directory. *)
Lemma candidates_one_token_demo :
  candidates Demo.home_usual (builtins Shell_init) ["e"]
    = Return ["exit"; "echo"]
  /\ (forall c : string,
        In c ["exit"; "echo"] <->
        PyStr.startswith c "e" = true
        /\ (In c (dict_keys (builtins Shell_init))
            \/ In c ["notes.txt"; "run.sh"; "src"])).
Proof.
  exact (@candidates_one_token Demo.world Demo.demo_os
           Demo.home_usual (builtins Shell_init) "e"
           ["notes.txt"; "run.sh"; "src"] eq_refl).
Defined.

(** The buffer [ls sr] in the home directory. *)
Lemma candidates_other_command_demo :
  candidates Demo.home_usual (builtins Shell_init) ["ls"; "sr"]
    = Return ["src/"]
  /\ (forall l : list string,
        candidates Demo.home_usual (builtins Shell_init) ["ls"; "sr"]
        = Return l ->
        forall c : string, In c l -> PyStr.startswith c "sr" = true).
Proof.
  refine (@candidates_other_command Demo.world Demo.demo_os
            Demo.home_usual (builtins Shell_init) [] "ls" "sr"
            ["notes.txt"; "run.sh"; "src"] _ eq_refl).
  discriminate.
Defined.

(** The fragments [../src] and [..] in the home directory. *)
Lemma cd_directory_dotdot_demo :
  cd_directory Demo.home_usual "../src" = cd_directory Demo.home_usual "src"
  /\ cd_directory Demo.home_usual ".." = Return Path_dot.
Proof.
  exact (@cd_directory_dotdot Demo.world Demo.demo_os
           Demo.home_usual "src" eq_refl).
Defined.

(** [cd /root/x]: the directory [/root] may not be searched, and asking
    whether [/root/x] is a directory raises. *)
Lemma candidates_raise_cause_demo :
  let e := Demo.permission_denied "/root/x" in
  candidates Demo.home_usual (builtins Shell_init) ["cd"; "/root/x"] = Raise e
  /\ exists d : string,
       (listdir Demo.home_usual d = Raise e
        /\ (d = "." \/ fs_is_dir Demo.home_usual d = Return true))
       \/ fs_is_dir Demo.home_usual d = Raise e.
Proof.
  split; [reflexivity |].
  exact (@candidates_raise_cause Demo.world Demo.demo_os
           Demo.home_usual (builtins Shell_init) ["cd"; "/root/x"]
           (Demo.permission_denied "/root/x") eq_refl).
Defined.

(** [cd sr] in the home directory: [sr] names no directory. *)
Lemma candidates_cd_not_directory_demo :
  candidates Demo.home_usual (builtins Shell_init) ["cd"; "sr"]
  = Return ["src/"].
Proof.
  exact (@candidates_cd_not_directory Demo.world Demo.demo_os
           Demo.home_usual (builtins Shell_init) [] "sr"
           ["notes.txt"; "run.sh"; "src"] true
           eq_refl eq_refl eq_refl eq_refl).
Defined.

(** [cd src] in the home directory: [src] is a directory, and nothing in
    it has a name that starts with [src]. *)
Lemma candidates_cd_directory_token_demo :
  candidates Demo.home_usual (builtins Shell_init) ["cd"; "src"] = Return [].
Proof.
  refine (@candidates_cd_directory_token Demo.world Demo.demo_os
            Demo.home_usual (builtins Shell_init) [] "src" ["main.py"]
            eq_refl _ _ _ eq_refl eq_refl); discriminate.
Defined.
